(** * Central-MCP-Server: beam request models and the MCP secret client

    A shallow embedding of

    - [engineering-webapp/backend/models/beam_models.py]: the pydantic models
      of the beam-analysis request, with their field constraints and class
      validators;
    - [client/python/mcp_client.py]: [MCPClient.get_secret], which layers the
      process environment, a local JSON file and a remote HTTP endpoint.

    Python [float] is IEEE-754 binary64 and is modelled by Rocq's primitive
    [float]; Python [int] is [Z]; [str] is [string]; a [dict] is a [gmap].
    A pydantic model is a record together with a constructor that runs the
    field validators in declaration order and either returns the record or
    the list of validation errors. *)

From Stdlib Require Import ZArith Floats.
From stdpp Require Import gmap strings list.

Local Open Scope Z_scope.
Set Warnings "-register-all,-inexact-float".
Set Default Proof Using "Type".

(** ** Python numbers under comparison

    [a < b] and [a <= b]; [a > b] is [b < a] and [a >= b] is [b <= a], which
    is how both CPython and IEEE-754 define them (every comparison with a NaN
    is false). *)

Class PyNumber (A : Type) := {
  py_ltb : A -> A -> bool;
  py_leb : A -> A -> bool
}.

#[global] Instance float_PyNumber : PyNumber float :=
  {| py_ltb := PrimFloat.ltb; py_leb := PrimFloat.leb |}.

#[global] Instance int_PyNumber : PyNumber Z :=
  {| py_ltb := Z.ltb; py_leb := Z.leb |}.

Definition py_gtb {A} `{PyNumber A} (a b : A) : bool := py_ltb b a.
Definition py_geb {A} `{PyNumber A} (a b : A) : bool := py_leb b a.

(** ** The part of pydantic (v1 API: [validator], [min_items]) the models use *)

(** A location inside the input: a field name or a list index. *)
Inductive Loc :=
| Key (name : string)
| Idx (i : nat).

(** What a failed field reports.  The three f-string messages of
    [AnalysisRequest] carry the two interpolated numbers. *)
Inductive ErrorMsg :=
| MissingError                       (* field required *)
| NoneIsNotAllowedError
| NumberNotGtError (limit : float)
| NumberNotGeError (limit : float)
| NumberNotLtError (limit : float)
| NumberNotLeError (limit : float)
| IntNotGeError (limit : Z)
| IntNotLeError (limit : Z)
| ListMinLengthError (limit : nat)
| WrongConstantError                 (* a Literal[...] field given another value *)
| ValueError (msg : string)
| PositionExceeds (what : string) (position beam_length : float).

Definition ErrorList := list (list Loc * ErrorMsg).

(** The outcome of constructing a model: the instance, or pydantic's
    [ValidationError] with every field error collected. *)
Inductive result (A : Type) :=
| Ok (a : A)
| ValidationError (errors : ErrorList).
Arguments Ok {A} a.
Arguments ValidationError {A} errors.

Definition is_ok {A} (r : result A) : bool :=
  match r with Ok _ => true | ValidationError _ => false end.

(** The outcome of validating one field: its value, to be stored in
    [values], or its errors. *)
Definition field (A : Type) := (ErrorList + A)%type.

(** [values.get(name)]: the validated value when the field passed, [None]
    when it failed or was missing. *)
Definition values_get {A} (f : field A) : option A :=
  match f with inr a => Some a | inl _ => None end.

Definition field_errors {A} (name : string) (f : field A) : ErrorList :=
  match f with
  | inr _ => []
  | inl es => map (fun '(loc, e) => (Key name :: loc, e)) es
  end.

Definition raise {A} (e : ErrorMsg) : field A := inl [([], e)].

(** A validator either returns the (possibly changed) value or raises. *)
Definition bind_field {A B} (f : field A) (k : A -> field B) : field B :=
  match f with inr a => k a | inl es => inl es end.

(** A required field ([Field(...)]): absent from the input is an error,
    otherwise the validators run on the value. *)
Definition required {A B} (input : option A) (validate : A -> field B) : field B :=
  match input with
  | None => raise MissingError
  | Some v => validate v
  end.

(** A field with a default and no [always=True] validator: when the input
    does not supply it the default is stored and no validator runs. *)
Definition with_default {A B} (input : option A) (default : B)
    (validate : A -> field B) : field B :=
  match input with
  | None => inr default
  | Some v => validate v
  end.

(** An [Optional[T]] field that was supplied: an explicit [None] skips the
    type and constraint validators and goes straight to the class validators
    ([post]); any other value passes the constraint validators first. *)
Definition optional {A} (constraints : A -> field A)
    (post : option A -> field (option A)) (v : option A) : field (option A) :=
  match v with
  | None => post None
  | Some a => bind_field (constraints a) (fun a' => post (Some a'))
  end.

(** The numeric constraints [Field] knows.  Any other keyword is kept in
    [extra] (it ends up in the JSON schema) and takes no part in
    validation. *)
Record FieldInfo (A : Type) := {
  gt : option A;
  ge : option A;
  lt : option A;
  le : option A;
  extra : list (string * A)
}.
Arguments gt {A} _.
Arguments ge {A} _.
Arguments lt {A} _.
Arguments le {A} _.
Arguments extra {A} _.

Definition Field {A} : FieldInfo A :=
  {| gt := None; ge := None; lt := None; le := None; extra := [] |}.

Definition unless {A} (failed : bool) (e : ErrorMsg) (k : field A) : field A :=
  if failed then raise e else k.

(** [number_size_validator] for a float field:
    [not v > gt], [not v >= ge], [not v < lt], [not v <= le]. *)
Definition float_size_validator (fi : FieldInfo float) (v : float) : field float :=
  let check (bound : option float) (holds : float -> bool)
            (e : float -> ErrorMsg) (k : field float) : field float :=
    match bound with
    | Some b => unless (negb (holds b)) (e b) k
    | None => k
    end in
  check (gt fi) (fun b => py_gtb v b) NumberNotGtError
 (check (ge fi) (fun b => py_geb v b) NumberNotGeError
 (check (lt fi) (fun b => py_ltb v b) NumberNotLtError
 (check (le fi) (fun b => py_leb v b) NumberNotLeError
 (inr v)))).

(** The same for an int field (only [ge] and [le] occur in the models). *)
Definition int_size_validator (fi : FieldInfo Z) (v : Z) : field Z :=
  let check (bound : option Z) (holds : Z -> bool)
            (e : Z -> ErrorMsg) (k : field Z) : field Z :=
    match bound with
    | Some b => unless (negb (holds b)) (e b) k
    | None => k
    end in
  check (ge fi) (fun b => py_geb v b) IntNotGeError
 (check (le fi) (fun b => py_leb v b) IntNotLeError
 (inr v)).

(** A field with no constraint and no validator. *)
Definition plain {A} (v : A) : field A := inr v.

(** [Literal[c]]: the supplied value must be [c]. *)
Definition literal {A} `{EqDecision A} (c : A) (v : A) : field A :=
  if decide (v = c) then inr v else raise WrongConstantError.

(** ** Enums *)

Module BeamType.
Inductive t := SIMPLY_SUPPORTED | CANTILEVER | FIXED_FIXED | FIXED_PINNED | CONTINUOUS.
#[global] Instance eq_dec : EqDecision t.
Proof. solve_decision. Defined.
End BeamType.

Module SupportType.
Inductive t := PIN | ROLLER | FIXED.
#[global] Instance eq_dec : EqDecision t.
Proof. solve_decision. Defined.
End SupportType.

Module LoadType.
Inductive t := POINT | DISTRIBUTED | MOMENT.
#[global] Instance eq_dec : EqDecision t.
Proof. solve_decision. Defined.
End LoadType.

Module CrossSectionType.
Inductive t := RECTANGULAR | CIRCULAR | I_BEAM | CUSTOM.
#[global] Instance eq_dec : EqDecision t.
Proof. solve_decision. Defined.
End CrossSectionType.

Module Direction.
Inductive t := UP | DOWN | CLOCKWISE | COUNTERCLOCKWISE.
#[global] Instance eq_dec : EqDecision t.
Proof. solve_decision. Defined.
End Direction.

(** ** JSON values, as [json.load] returns them

    [null] is Python's [None], a number is an [int] or a [float], an object
    is a [dict] with string keys. *)

Inductive json :=
| JNull
| JBool (b : bool)
| JInt (n : Z)
| JFloat (x : float)
| JStr (s : string)
| JArr (items : list json)
| JObj (members : gmap string json).

(** ** Cross Section Models *)

(** A field whose type is itself a model: the input either builds the inner
    model or contributes the inner errors. *)
Definition nested {A} (r : result A) : field A :=
  match r with Ok a => inr a | ValidationError es => inl es end.

Module CrossSection.
Import CrossSectionType.

Record t := {
  type : CrossSectionType.t;
  width : option float;
  height : option float;
  diameter : option float;
  custom_properties : option (gmap string json)
}.

(** [Field(None, gt=0)] *)
Definition dimension : FieldInfo float :=
  {| gt := Some 0%float; ge := None; lt := None; le := None; extra := [] |}.

(** In the three validators [values_type] is [values.get('type')]. *)
Definition validate_width (v : option float) (values_type : option CrossSectionType.t)
    : field (option float) :=
  if bool_decide (values_type = Some RECTANGULAR) && bool_decide (v = None)
  then raise (ValueError "Width is required for rectangular cross section")
  else inr v.

Definition validate_height (v : option float) (values_type : option CrossSectionType.t)
    : field (option float) :=
  if bool_decide (values_type = Some RECTANGULAR) && bool_decide (v = None)
  then raise (ValueError "Height is required for rectangular cross section")
  else inr v.

Definition validate_diameter (v : option float) (values_type : option CrossSectionType.t)
    : field (option float) :=
  if bool_decide (values_type = Some CIRCULAR) && bool_decide (v = None)
  then raise (ValueError "Diameter is required for circular cross section")
  else inr v.

(** [CrossSection(type=..., width=..., ...)].  An argument is [None] when
    the keyword is not passed; for the optional dimensions [Some None] is
    an explicit [None] (JSON [null]).  None of the validators is declared
    with [always=True], so an omitted dimension keeps its default [None]
    without being validated. *)
Definition init (type : option CrossSectionType.t)
    (width height diameter : option (option float))
    (custom_properties : option (option (gmap string json))) : result t :=
  let f_type := required type plain in
  let f_width := with_default width None
    (optional (float_size_validator dimension)
              (fun v => validate_width v (values_get f_type))) in
  let f_height := with_default height None
    (optional (float_size_validator dimension)
              (fun v => validate_height v (values_get f_type))) in
  let f_diameter := with_default diameter None
    (optional (float_size_validator dimension)
              (fun v => validate_diameter v (values_get f_type))) in
  let f_custom := with_default custom_properties None plain in
  match f_type, f_width, f_height, f_diameter, f_custom with
  | inr ty, inr w, inr h, inr d, inr c =>
      Ok {| type := ty; width := w; height := h; diameter := d;
            custom_properties := c |}
  | _, _, _, _, _ =>
      ValidationError (field_errors "type" f_type ++ field_errors "width" f_width
        ++ field_errors "height" f_height ++ field_errors "diameter" f_diameter
        ++ field_errors "custom_properties" f_custom)
  end.
End CrossSection.

(** ** Material and beam properties *)

(** [Field(..., gt=0)] *)
Definition gt_zero : FieldInfo float :=
  {| gt := Some 0%float; ge := None; lt := None; le := None; extra := [] |}.

(** [Field(..., ge=0)] *)
Definition ge_zero : FieldInfo float :=
  {| gt := None; ge := Some 0%float; lt := None; le := None; extra := [] |}.

Module Material.
Record t := {
  name : string;
  density : float;
  yield_strength : float
}.

Definition init (name : option string) (density yield_strength : option float)
    : result t :=
  let f_name := required name plain in
  let f_density := required density (float_size_validator gt_zero) in
  let f_yield := required yield_strength (float_size_validator gt_zero) in
  match f_name, f_density, f_yield with
  | inr n, inr d, inr y => Ok {| name := n; density := d; yield_strength := y |}
  | _, _, _ =>
      ValidationError (field_errors "name" f_name ++ field_errors "density" f_density
        ++ field_errors "yield_strength" f_yield)
  end.
End Material.

Module BeamProperties.
Record t := {
  id : string;
  name : string;
  length : float;
  elastic_modulus : float;
  moment_of_inertia : float;
  cross_section : CrossSection.t;
  material : Material.t
}.

Definition init (id name : option string)
    (length elastic_modulus moment_of_inertia : option float)
    (cross_section : option (result CrossSection.t))
    (material : option (result Material.t)) : result t :=
  let f_id := required id plain in
  let f_name := required name plain in
  let f_length := required length (float_size_validator gt_zero) in
  let f_E := required elastic_modulus (float_size_validator gt_zero) in
  let f_I := required moment_of_inertia (float_size_validator gt_zero) in
  let f_cs := required cross_section nested in
  let f_mat := required material nested in
  match f_id, f_name, f_length, f_E, f_I, f_cs, f_mat with
  | inr i, inr n, inr l, inr e, inr mi, inr cs, inr m =>
      Ok {| id := i; name := n; length := l; elastic_modulus := e;
            moment_of_inertia := mi; cross_section := cs; material := m |}
  | _, _, _, _, _, _, _ =>
      ValidationError (field_errors "id" f_id ++ field_errors "name" f_name
        ++ field_errors "length" f_length ++ field_errors "elastic_modulus" f_E
        ++ field_errors "moment_of_inertia" f_I
        ++ field_errors "cross_section" f_cs ++ field_errors "material" f_mat)
  end.
End BeamProperties.

(** ** Support Models *)

Module SupportReactions.
Record t := {
  vertical : bool;
  horizontal : bool;
  moment : bool
}.

Definition init (vertical horizontal moment : option bool) : result t :=
  let f_vertical := with_default vertical true plain in
  let f_horizontal := with_default horizontal false plain in
  let f_moment := with_default moment false plain in
  match f_vertical, f_horizontal, f_moment with
  | inr v, inr h, inr m => Ok {| vertical := v; horizontal := h; moment := m |}
  | _, _, _ =>
      ValidationError (field_errors "vertical" f_vertical
        ++ field_errors "horizontal" f_horizontal ++ field_errors "moment" f_moment)
  end.

(** The three attribute assignments of [Support.validate_reactions]. *)
Definition set_vertical (b : bool) (v : t) : t :=
  {| vertical := b; horizontal := horizontal v; moment := moment v |}.
Definition set_horizontal (b : bool) (v : t) : t :=
  {| vertical := vertical v; horizontal := b; moment := moment v |}.
Definition set_moment (b : bool) (v : t) : t :=
  {| vertical := vertical v; horizontal := horizontal v; moment := b |}.
End SupportReactions.

Module Support.
Import SupportType.

Record t := {
  position : float;
  type : SupportType.t;
  reactions : SupportReactions.t
}.

(** [values_type] is [values.get('type')]; when the kind did not validate
    none of the three branches is taken and [v] is returned as it came. *)
Definition validate_reactions (v : SupportReactions.t)
    (values_type : option SupportType.t) : field SupportReactions.t :=
  let support_type := values_type in
  if bool_decide (support_type = Some PIN) then
    let v := SupportReactions.set_vertical true v in
    let v := SupportReactions.set_horizontal true v in
    let v := SupportReactions.set_moment false v in
    inr v
  else if bool_decide (support_type = Some ROLLER) then
    let v := SupportReactions.set_vertical true v in
    let v := SupportReactions.set_horizontal false v in
    let v := SupportReactions.set_moment false v in
    inr v
  else if bool_decide (support_type = Some FIXED) then
    let v := SupportReactions.set_vertical true v in
    let v := SupportReactions.set_horizontal true v in
    let v := SupportReactions.set_moment true v in
    inr v
  else inr v.

Definition init (position : option float) (type : option SupportType.t)
    (reactions : option (result SupportReactions.t)) : result t :=
  let f_position := required position (float_size_validator ge_zero) in
  let f_type := required type plain in
  let f_reactions := required reactions (fun r =>
    bind_field (nested r) (fun v => validate_reactions v (values_get f_type))) in
  match f_position, f_type, f_reactions with
  | inr p, inr ty, inr r => Ok {| position := p; type := ty; reactions := r |}
  | _, _, _ =>
      ValidationError (field_errors "position" f_position
        ++ field_errors "type" f_type ++ field_errors "reactions" f_reactions)
  end.
End Support.

(** The items of a [List[Model]] field: every item is validated, and the
    errors of the failing ones are reported under their index. *)
Fixpoint list_items {A} (i : nat) (items : list (result A)) : field (list A) :=
  match items with
  | [] => inr []
  | r :: rest =>
      match r, list_items (S i) rest with
      | Ok a, inr l => inr (a :: l)
      | Ok _, inl es => inl es
      | ValidationError es, tl =>
          inl (map (fun '(loc, e) => (Idx i :: loc, e)) es
               ++ match tl with inl es' => es' | inr _ => [] end)
      end
  end.

(** [min_items=n]: checked on the list as supplied, before its items. *)
Definition list_length_validator {A} (min_items : nat) (v : list A) : field (list A) :=
  if (List.length v <? min_items)%nat then raise (ListMinLengthError min_items)
  else inr v.

Module SupportConditions.
Import BeamType.

Record t := {
  type : BeamType.t;
  supports : list Support.t
}.

(** [values_type] is [values.get('type')].  [v[0]] is reached only by a
    cantilever that passed the count check, so the list has one item
    there; the index error of an empty list is kept as its own case. *)
Definition validate_supports (v : list Support.t) (values_type : option BeamType.t)
    : field (list Support.t) :=
  let beam_type := values_type in
  let counted : field (list Support.t) :=
    if bool_decide (beam_type = Some SIMPLY_SUPPORTED) && negb (List.length v =? 2)%nat
    then raise (ValueError "Simply supported beam requires exactly 2 supports")
    else if bool_decide (beam_type = Some CANTILEVER) && negb (List.length v =? 1)%nat
    then raise (ValueError "Cantilever beam requires exactly 1 support")
    else if bool_decide (beam_type = Some FIXED_FIXED) && negb (List.length v =? 2)%nat
    then raise (ValueError "Fixed-fixed beam requires exactly 2 supports")
    else inr v in
  bind_field counted (fun v =>
    if bool_decide (beam_type = Some CANTILEVER) then
      match v !! 0%nat with
      | Some support =>
          if bool_decide (Support.type support <> SupportType.FIXED)
          then raise (ValueError "Cantilever beam requires a fixed support")
          else inr v
      | None => raise (ValueError "list index out of range")
      end
    else inr v).

Definition init (type : option BeamType.t)
    (supports : option (list (result Support.t))) : result t :=
  let f_type := required type plain in
  let f_supports := required supports (fun raw =>
    bind_field (list_length_validator 1 raw) (fun raw =>
    bind_field (list_items 0 raw) (fun v =>
    validate_supports v (values_get f_type)))) in
  match f_type, f_supports with
  | inr ty, inr ss => Ok {| type := ty; supports := ss |}
  | _, _ =>
      ValidationError (field_errors "type" f_type ++ field_errors "supports" f_supports)
  end.
End SupportConditions.

(** ** Load Models *)

(** [Field(..., ne=0)]: [ne] is not one of the constraints [Field] knows, so
    it lands in [extra]. *)
Definition ne_zero : FieldInfo float :=
  {| gt := None; ge := None; lt := None; le := None; extra := [("ne", 0%float)] |}.

(** [Field(0, ge=0, le=360)] *)
Definition degrees : FieldInfo float :=
  {| gt := None; ge := Some 0%float; lt := None; le := Some 360%float; extra := [] |}.

Module PointLoad.
Record t := {
  type : LoadType.t;
  magnitude : float;
  position : float;
  direction : Direction.t;
  angle : option float
}.

Definition init (type : option LoadType.t) (magnitude position : option float)
    (direction : option Direction.t) (angle : option (option float)) : result t :=
  let f_type := with_default type LoadType.POINT (literal LoadType.POINT) in
  let f_magnitude := required magnitude (float_size_validator ne_zero) in
  let f_position := required position (float_size_validator ge_zero) in
  let f_direction := with_default direction Direction.DOWN plain in
  let f_angle := with_default angle (Some 0%float)
    (optional (float_size_validator degrees) plain) in
  match f_type, f_magnitude, f_position, f_direction, f_angle with
  | inr ty, inr m, inr p, inr d, inr a =>
      Ok {| type := ty; magnitude := m; position := p; direction := d; angle := a |}
  | _, _, _, _, _ =>
      ValidationError (field_errors "type" f_type ++ field_errors "magnitude" f_magnitude
        ++ field_errors "position" f_position ++ field_errors "direction" f_direction
        ++ field_errors "angle" f_angle)
  end.
End PointLoad.

Module DistributedLoad.
Record t := {
  type : LoadType.t;
  start_magnitude : float;
  end_magnitude : float;
  start_position : float;
  end_position : float;
  direction : Direction.t
}.

(** [values_start_position] is [values.get('start_position')]. *)
Definition validate_positions (v : float) (values_start_position : option float)
    : field float :=
  let start_pos := values_start_position in
  match start_pos with
  | Some start_pos =>
      if py_leb v start_pos
      then raise (ValueError "End position must be greater than start position")
      else inr v
  | None => inr v
  end.

Definition init (type : option LoadType.t)
    (start_magnitude end_magnitude start_position end_position : option float)
    (direction : option Direction.t) : result t :=
  let f_type := with_default type LoadType.DISTRIBUTED (literal LoadType.DISTRIBUTED) in
  let f_start_magnitude := required start_magnitude (float_size_validator Field) in
  let f_end_magnitude := required end_magnitude (float_size_validator Field) in
  let f_start_position := required start_position (float_size_validator ge_zero) in
  let f_end_position := required end_position (fun v =>
    bind_field (float_size_validator ge_zero v) (fun v =>
    validate_positions v (values_get f_start_position))) in
  let f_direction := with_default direction Direction.DOWN plain in
  match f_type, f_start_magnitude, f_end_magnitude, f_start_position,
        f_end_position, f_direction with
  | inr ty, inr sm, inr em, inr sp, inr ep, inr d =>
      Ok {| type := ty; start_magnitude := sm; end_magnitude := em;
            start_position := sp; end_position := ep; direction := d |}
  | _, _, _, _, _, _ =>
      ValidationError (field_errors "type" f_type
        ++ field_errors "start_magnitude" f_start_magnitude
        ++ field_errors "end_magnitude" f_end_magnitude
        ++ field_errors "start_position" f_start_position
        ++ field_errors "end_position" f_end_position
        ++ field_errors "direction" f_direction)
  end.
End DistributedLoad.

Module MomentLoad.
Record t := {
  type : LoadType.t;
  magnitude : float;
  position : float;
  direction : Direction.t
}.

Definition init (type : option LoadType.t) (magnitude position : option float)
    (direction : option Direction.t) : result t :=
  let f_type := with_default type LoadType.MOMENT (literal LoadType.MOMENT) in
  let f_magnitude := required magnitude (float_size_validator ne_zero) in
  let f_position := required position (float_size_validator ge_zero) in
  let f_direction := with_default direction Direction.CLOCKWISE plain in
  match f_type, f_magnitude, f_position, f_direction with
  | inr ty, inr m, inr p, inr d =>
      Ok {| type := ty; magnitude := m; position := p; direction := d |}
  | _, _, _, _ =>
      ValidationError (field_errors "type" f_type ++ field_errors "magnitude" f_magnitude
        ++ field_errors "position" f_position ++ field_errors "direction" f_direction)
  end.
End MomentLoad.

(** [Load = Union[PointLoad, DistributedLoad, MomentLoad]] *)
Module Load.
Inductive t :=
| Point (l : PointLoad.t)
| Distributed (l : DistributedLoad.t)
| Moment (l : MomentLoad.t).

(** The keys a load object may carry; a model ignores the keys it does not
    declare. *)
Record raw := {
  type : option LoadType.t;
  magnitude : option float;
  position : option float;
  direction : option Direction.t;
  angle : option (option float);
  start_magnitude : option float;
  end_magnitude : option float;
  start_position : option float;
  end_position : option float
}.

Definition result_errors {A} (r : result A) : ErrorList :=
  match r with Ok _ => [] | ValidationError es => es end.

(** The members of the union are tried in the order they are written and
    the first that validates wins. *)
Definition parse (d : raw) : result t :=
  let as_point :=
    PointLoad.init (type d) (magnitude d) (position d) (direction d) (angle d) in
  let as_distributed :=
    DistributedLoad.init (type d) (start_magnitude d) (end_magnitude d)
      (start_position d) (end_position d) (direction d) in
  let as_moment :=
    MomentLoad.init (type d) (magnitude d) (position d) (direction d) in
  match as_point, as_distributed, as_moment with
  | Ok p, _, _ => Ok (Point p)
  | _, Ok l, _ => Ok (Distributed l)
  | _, _, Ok m => Ok (Moment m)
  | _, _, _ =>
      ValidationError (result_errors as_point ++ result_errors as_distributed
        ++ result_errors as_moment)
  end.

(** [load.position] when [hasattr(load, 'position')]. *)
Definition get_position (load : t) : option float :=
  match load with
  | Point l => Some (PointLoad.position l)
  | Distributed _ => None
  | Moment l => Some (MomentLoad.position l)
  end.

(** [load.end_position] when [hasattr(load, 'end_position')]. *)
Definition get_end_position (load : t) : option float :=
  match load with
  | Distributed l => Some (DistributedLoad.end_position l)
  | Point _ | Moment _ => None
  end.
End Load.

Module LoadConditions.
Record t := { loads : list Load.t }.

Definition init (loads : option (list (result Load.t))) : result t :=
  let f_loads := required loads (fun raw =>
    bind_field (list_length_validator 1 raw) (list_items 0)) in
  match f_loads with
  | inr ls => Ok {| loads := ls |}
  | inl _ => ValidationError (field_errors "loads" f_loads)
  end.
End LoadConditions.

(** ** Analysis Options *)

(** [Field(100, ge=10, le=1000)] *)
Definition point_count : FieldInfo Z :=
  {| gt := None; ge := Some 10; lt := None; le := Some 1000; extra := [] |}.

(** [Field(1.5, ge=1.0)] *)
Definition at_least_one : FieldInfo float :=
  {| gt := None; ge := Some 1%float; lt := None; le := None; extra := [] |}.

Module AnalysisOptions.
Record t := {
  include_deflection : bool;
  include_moment : bool;
  include_shear : bool;
  include_stress : bool;
  number_of_points : Z;
  safety_factor : option float
}.

Definition init (include_deflection include_moment include_shear include_stress
    : option bool) (number_of_points : option Z)
    (safety_factor : option (option float)) : result t :=
  let f_deflection := with_default include_deflection true plain in
  let f_moment := with_default include_moment true plain in
  let f_shear := with_default include_shear true plain in
  let f_stress := with_default include_stress true plain in
  let f_points := with_default number_of_points 100 (int_size_validator point_count) in
  let f_safety := with_default safety_factor (Some 1.5%float)
    (optional (float_size_validator at_least_one) plain) in
  match f_deflection, f_moment, f_shear, f_stress, f_points, f_safety with
  | inr d, inr m, inr sh, inr st, inr n, inr sf =>
      Ok {| include_deflection := d; include_moment := m; include_shear := sh;
            include_stress := st; number_of_points := n; safety_factor := sf |}
  | _, _, _, _, _, _ =>
      ValidationError (field_errors "include_deflection" f_deflection
        ++ field_errors "include_moment" f_moment
        ++ field_errors "include_shear" f_shear
        ++ field_errors "include_stress" f_stress
        ++ field_errors "number_of_points" f_points
        ++ field_errors "safety_factor" f_safety)
  end.

(** [AnalysisOptions()], the [default_factory] of
    [AnalysisRequest.analysis_options]. *)
Definition default : t :=
  {| include_deflection := true; include_moment := true; include_shear := true;
     include_stress := true; number_of_points := 100;
     safety_factor := Some 1.5%float |}.
End AnalysisOptions.

(** ** Analysis Request *)

Module AnalysisRequest.
Record t := {
  id : string;
  timestamp : Z;
  beam : BeamProperties.t;
  supports : SupportConditions.t;
  loads : LoadConditions.t;
  analysis_options : AnalysisOptions.t
}.

(** [hasattr(load, attr) and load.attr > beam_length], with the error it
    raises; [attr] is [None] when the load has no such attribute. *)
Definition exceeds (what : string) (attr : option float) (beam_length : float)
    : option ErrorMsg :=
  match attr with
  | Some x =>
      if py_gtb x beam_length then Some (PositionExceeds what x beam_length) else None
  | None => None
  end.

(** The body of [for load in v.loads]: the first load out of bounds raises. *)
Fixpoint check_loads (beam_length : float) (loads : list Load.t) : option ErrorMsg :=
  match loads with
  | [] => None
  | load :: rest =>
      match exceeds "Load position" (Load.get_position load) beam_length with
      | Some e => Some e
      | None =>
          match exceeds "Load end position" (Load.get_end_position load) beam_length with
          | Some e => Some e
          | None => check_loads beam_length rest
          end
      end
  end.

(** [values_beam] is [values.get('beam')]; a model instance is truthy. *)
Definition validate_load_positions (v : LoadConditions.t)
    (values_beam : option BeamProperties.t) : field LoadConditions.t :=
  match values_beam with
  | Some beam =>
      let beam_length := BeamProperties.length beam in
      match check_loads beam_length (LoadConditions.loads v) with
      | Some e => raise e
      | None => inr v
      end
  | None => inr v
  end.

(** The body of [for support in v.supports]. *)
Fixpoint check_supports (beam_length : float) (supports : list Support.t)
    : option ErrorMsg :=
  match supports with
  | [] => None
  | support :: rest =>
      if py_gtb (Support.position support) beam_length
      then Some (PositionExceeds "Support position" (Support.position support) beam_length)
      else check_supports beam_length rest
  end.

Definition validate_support_positions (v : SupportConditions.t)
    (values_beam : option BeamProperties.t) : field SupportConditions.t :=
  match values_beam with
  | Some beam =>
      let beam_length := BeamProperties.length beam in
      match check_supports beam_length (SupportConditions.supports v) with
      | Some e => raise e
      | None => inr v
      end
  | None => inr v
  end.

(** [now] is what [datetime.now()] returns when the request is built. *)
Definition init (now : Z) (id : option string) (timestamp : option Z)
    (beam : option (result BeamProperties.t))
    (supports : option (result SupportConditions.t))
    (loads : option (result LoadConditions.t))
    (analysis_options : option (result AnalysisOptions.t)) : result t :=
  let f_id := required id plain in
  let f_timestamp := with_default timestamp now plain in
  let f_beam := required beam nested in
  let f_supports := required supports (fun r =>
    bind_field (nested r) (fun v => validate_support_positions v (values_get f_beam))) in
  let f_loads := required loads (fun r =>
    bind_field (nested r) (fun v => validate_load_positions v (values_get f_beam))) in
  let f_options := with_default analysis_options AnalysisOptions.default nested in
  match f_id, f_timestamp, f_beam, f_supports, f_loads, f_options with
  | inr i, inr ts, inr b, inr ss, inr ls, inr o =>
      Ok {| id := i; timestamp := ts; beam := b; supports := ss; loads := ls;
            analysis_options := o |}
  | _, _, _, _, _, _ =>
      ValidationError (field_errors "id" f_id ++ field_errors "timestamp" f_timestamp
        ++ field_errors "beam" f_beam ++ field_errors "supports" f_supports
        ++ field_errors "loads" f_loads ++ field_errors "analysis_options" f_options)
  end.
End AnalysisRequest.

(** ** Result Models *)

(** [Field(..., ge=0, le=1)] *)
Definition unit_interval : FieldInfo float :=
  {| gt := None; ge := Some 0%float; lt := None; le := Some 1%float; extra := [] |}.

(** [Literal[s1, ..., sn]] over strings. *)
Definition one_of (allowed : list string) (v : string) : field string :=
  if bool_decide (v ∈ allowed) then inr v else raise WrongConstantError.

Module CriticalPoint.
Record t := {
  position : float;
  type : string;
  actual_value : float;
  allowable_value : float;
  utilization_ratio : float;
  severity : string
}.

Definition init (position : option float) (type : option string)
    (actual_value allowable_value utilization_ratio : option float)
    (severity : option string) : result t :=
  let f_position := required position (float_size_validator Field) in
  let f_type := required type (one_of ["moment"; "shear"; "deflection"; "stress"]) in
  let f_actual := required actual_value (float_size_validator Field) in
  let f_allowable := required allowable_value (float_size_validator Field) in
  let f_ratio := required utilization_ratio (float_size_validator unit_interval) in
  let f_severity := required severity (one_of ["low"; "medium"; "high"; "critical"]) in
  match f_position, f_type, f_actual, f_allowable, f_ratio, f_severity with
  | inr p, inr ty, inr a, inr al, inr u, inr s =>
      Ok {| position := p; type := ty; actual_value := a; allowable_value := al;
            utilization_ratio := u; severity := s |}
  | _, _, _, _, _, _ =>
      ValidationError (field_errors "position" f_position ++ field_errors "type" f_type
        ++ field_errors "actual_value" f_actual
        ++ field_errors "allowable_value" f_allowable
        ++ field_errors "utilization_ratio" f_ratio
        ++ field_errors "severity" f_severity)
  end.
End CriticalPoint.

(** ** Safety Assessor: the producer of critical points *)

Module SafetyAssessor.
(** Modelled from the spec: the first severity threshold of section 4.6
    ("<0.5 low, <0.75 medium, <0.9 high, >=0.9 critical"), as a named
    constant.  The service that builds critical points,
    [services/beam_calculator.py], is imported by [app/main.py] but is not
    among the sources. *)
Definition LOW_LIMIT : float := 0.5%float.

(** Modelled from the spec: the second severity threshold of section 4.6 of
    the absent Safety Assessor. *)
Definition MEDIUM_LIMIT : float := 0.75%float.

(** Modelled from the spec: the third severity threshold of section 4.6 of
    the absent Safety Assessor. *)
Definition HIGH_LIMIT : float := 0.9%float.

(** Modelled from the spec: "clamped to [0,1]" (sections 3 and 4.6) of the
    absent Safety Assessor: below 0 gives 0, above 1 gives 1, anything else
    is kept. *)
Definition clamp01 (x : float) : float :=
  if py_ltb x 0%float then 0%float
  else if py_gtb x 1%float then 1%float
  else x.

(** Modelled from the spec: "bucket severity by fixed thresholds"
    (section 4.6) of the absent Safety Assessor. *)
Definition severity_of (ratio : float) : string :=
  if py_ltb ratio LOW_LIMIT then "low"
  else if py_ltb ratio MEDIUM_LIMIT then "medium"
  else if py_ltb ratio HIGH_LIMIT then "high"
  else "critical".

(** Modelled from the spec: the critical point the absent Safety Assessor
    reports for one sample (section 4.6: "utilization = |actual| /
    allowable, clamped to [0,1]"; section 3: "utilization ratio =
    actual/allowable clamped to [0,1], severity bucketed from the ratio").
    The point records the demand [|sample|] as its actual value, so that
    both sentences read the same, and is built through the constructor of
    [CriticalPoint] from [beam_models.py]. *)
Definition critical_point (position : float) (kind : string)
    (sample allowable : float) : result CriticalPoint.t :=
  let actual := PrimFloat.abs sample in
  let ratio := clamp01 (actual / allowable)%float in
  CriticalPoint.init (Some position) (Some kind) (Some actual) (Some allowable)
    (Some ratio) (Some (severity_of ratio)).
End SafetyAssessor.

(** ** The MCP client ([mcp_client.py]) *)

(** What a Python call does: return a value or raise. *)
Inductive exception :=
| TypeError (msg : string)
| KeyError (key : string).

Inductive outcome (A : Type) :=
| Return (a : A)
| Raise (e : exception).
Arguments Return {A} a.
Arguments Raise {A} e.

(** [bool(v)] of a JSON value. *)
Definition truthy (v : json) : bool :=
  match v with
  | JNull => false
  | JBool b => b
  | JInt n => negb (n =? 0)
  | JFloat x => negb (PrimFloat.eqb x 0%float)
  | JStr s => negb (bool_decide (s = ""))
  | JArr items => negb (bool_decide (items = []))
  | JObj members => negb (bool_decide (size members = 0%nat))
  end.

(** [bool(s)] of an [Optional[str]]. *)
Definition truthy_str (s : option string) : bool :=
  match s with
  | Some s => negb (bool_decide (s = ""))
  | None => false
  end.

(** [a or b] on [Optional[str]]. *)
Definition py_or (a b : option string) : option string :=
  if truthy_str a then a else b.

(** [needle in haystack] on two strings. *)
Fixpoint is_substring (needle haystack : string) : bool :=
  String.prefix needle haystack ||
  match haystack with
  | EmptyString => false
  | String _ rest => is_substring needle rest
  end.

(** [name in container]: key membership for a dict, an equal item for a
    list, a substring for a string; the other values are not iterable. *)
Definition py_contains (name : string) (container : json) : outcome bool :=
  match container with
  | JObj members => Return (bool_decide (is_Some (members !! name)))
  | JArr items =>
      Return (existsb (fun item =>
        match item with JStr s => bool_decide (s = name) | _ => false end) items)
  | JStr s => Return (is_substring name s)
  | JNull | JBool _ | JInt _ | JFloat _ =>
      Raise (TypeError "argument is not iterable")
  end.

(** [container[name]] with a string index. *)
Definition py_getitem (container : json) (name : string) : outcome json :=
  match container with
  | JObj members =>
      match members !! name with
      | Some v => Return v
      | None => Raise (KeyError name)
      end
  | JArr _ | JStr _ => Raise (TypeError "indices must be integers")
  | JNull | JBool _ | JInt _ | JFloat _ =>
      Raise (TypeError "object is not subscriptable")
  end.

(** [s.upper()] on the ASCII letters; other characters are left alone. *)
Definition upper_ascii (c : Ascii.ascii) : Ascii.ascii :=
  let n := Ascii.N_of_ascii c in
  if ((97 <=? n) && (n <=? 122))%N then Ascii.ascii_of_N (n - 32) else c.

Fixpoint upper (s : string) : string :=
  match s with
  | EmptyString => EmptyString
  | String c rest => String (upper_ascii c) (upper rest)
  end.

Definition slash : Ascii.ascii := Ascii.ascii_of_N 47.

(** [s.rstrip("/")] *)
Fixpoint rstrip_slash (s : string) : string :=
  match s with
  | EmptyString => EmptyString
  | String c rest =>
      let rest' := rstrip_slash rest in
      if bool_decide (rest' = EmptyString) && bool_decide (c = slash)
      then EmptyString
      else String c rest'
  end.

(** [os.path.join(a, b)] for a relative [b], POSIX separator. *)
Definition path_join (a b : string) : string :=
  if bool_decide (a = "") then b
  else if String.prefix "/" (String.rev a) then a +:+ b
  else a +:+ "/" +:+ b.

(** A candidate configuration file: absent, present but failing to open or
    to parse (the [except Exception: continue] case), or holding a JSON
    value. *)
Inductive file_state :=
| NoFile
| Unreadable
| Content (data : json).

Inductive http_method := GET | POST.

(** A request as [get_secret] sends it; the bearer is the value
    interpolated after ["Bearer "]. *)
Record http_request := {
  method : http_method;
  target : string;
  bearer : option json
}.

(** What [requests.get]/[requests.post] gives back: an exception
    (connection error, the 5 s timeout), or a response whose [json()] is
    [None] when the body does not parse. *)
Inductive http_reply :=
| Failed
| Response (status_code : Z) (body : option json).

(** Everything outside the client.  The server answers a request knowing
    every request sent before it (most recent first), so its answers may
    change from call to call. *)
Record World := {
  environ : gmap string string;
  module_dir : string;                 (* os.path.dirname(__file__) *)
  files : string -> file_state;
  server : list http_request -> http_reply
}.

Definition send (w : World) (req : http_request) (log : list http_request)
    : http_reply * list http_request :=
  (server w (req :: log), req :: log).

(** [resp.json().get(key)]: [None] when it raises ([json()] fails, or the
    body is not an object and has no [get]). *)
Definition json_get (body : option json) (key : string) : option json :=
  match body with
  | Some (JObj members) => Some (default JNull (members !! key))
  | _ => None
  end.

Module MCPClient.
Record t := {
  url : option string;
  token : option string;
  cache_ttl : Z;
  _cache : json * Z                  (* {"data": ..., "ts": ...} *)
}.

(** [MCPClient(url, token, cache_ttl)] *)
Definition init (w : World) (url token : option string) (cache_ttl : option Z) : t :=
  {| url := py_or url (environ w !! "CENTRAL_MCP_SERVER_URL");
     token := py_or token (environ w !! "CENTRAL_MCP_CLIENT_TOKEN");
     cache_ttl := default 30 cache_ttl;
     _cache := (JNull, 0) |}.

Definition candidates (w : World) : list string :=
  [ "C:\central-mcp-config.json";
    path_join (path_join (path_join (module_dir w) "..") "..")
              "central-mcp-config.json" ].

(** The loop of [_read_local]: the first candidate that exists and loads
    is returned; one that raises is skipped. *)
Fixpoint read_first (files : string -> file_state) (ps : list string) : json :=
  match ps with
  | [] => JNull
  | p :: rest =>
      match files p with
      | Content data => data
      | NoFile | Unreadable => read_first files rest
      end
  end.

Definition _read_local (w : World) : json :=
  read_first (files w) (candidates w).

(** Step 2 of [get_secret]: [Return (Some v)] is [return v], [Return None]
    falls through to the remote step, [Raise] is an exception that leaves
    [get_secret] (nothing catches it there). *)
Definition lookup_local (local : json) (name : string) : outcome (option json) :=
  if truthy local then
    match local with
    | JObj members =>
        let in_secrets : outcome bool :=
          match members !! "secrets" with
          | Some secrets => py_contains name secrets
          | None => Return false
          end in
        match in_secrets with
        | Raise e => Raise e
        | Return true =>
            match py_getitem (default JNull (members !! "secrets")) name with
            | Return v => Return (Some v)
            | Raise e => Raise e
            end
        | Return false =>
            match members !! name with
            | Some v => Return (Some v)
            | None => Return None
            end
        end
    | _ => Return None
    end
  else Return None.

(** The first remote attempt, with the client token as bearer: [Some v]
    is [return v]; [None] means the attempt was skipped, answered with
    another status, or raised inside its [try]. *)
Definition try_direct (self : t) (base name : string) (w : World)
    (log : list http_request) : option json * list http_request :=
  match token self with
  | Some tok =>
      if truthy_str (token self) then
        let '(r, log) := send w {| method := GET;
                                   target := base +:+ "/secrets/" +:+ name;
                                   bearer := Some (JStr tok) |} log in
        match r with
        | Response status_code body =>
            if status_code =? 200 then (json_get body "value", log) else (None, log)
        | Failed => (None, log)
        end
      else (None, log)
  | None => (None, log)
  end.

(** The second remote attempt: exchange the client token for a
    short-lived one and retry with it. *)
Definition try_jwt (self : t) (base name : string) (w : World)
    (log : list http_request) : option json * list http_request :=
  match token self with
  | Some tok =>
      if truthy_str (token self) then
        let '(t, log) := send w {| method := POST;
                                   target := base +:+ "/token";
                                   bearer := Some (JStr tok) |} log in
        match t with
        | Response status_code body =>
            if status_code =? 200 then
              match json_get body "access_token" with
              | Some token =>
                  if truthy token then
                    let '(r2, log) := send w {| method := GET;
                                                target := base +:+ "/secrets/" +:+ name;
                                                bearer := Some token |} log in
                    match r2 with
                    | Response status_code2 body2 =>
                        if status_code2 =? 200
                        then (json_get body2 "value", log)
                        else (None, log)
                    | Failed => (None, log)
                    end
                  else (None, log)
              | None => (None, log)
              end
            else (None, log)
        | Failed => (None, log)
        end
      else (None, log)
  | None => (None, log)
  end.

(** Step 3 of [get_secret]. *)
Definition get_remote (self : t) (name : string) (w : World)
    (log : list http_request) : json * list http_request :=
  match url self with
  | Some u =>
      if truthy_str (url self) then
        let base := rstrip_slash u in
        match try_direct self base name w log with
        | (Some v, log) => (v, log)
        | (None, log) =>
            match try_jwt self base name w log with
            | (Some v, log) => (v, log)
            | (None, log) => (JNull, log)
            end
        end
      else (JNull, log)
  | None => (JNull, log)
  end.

(** [self.get_secret(name)], started with the requests already sent in
    [log]; it returns what Python returns ([JNull] for [None]) or the
    exception it raises, and the requests sent by then. *)
Definition get_secret (self : t) (name : string) (w : World)
    (log : list http_request) : outcome json * list http_request :=
  match environ w !! name with
  | Some v => (Return (JStr v), log)
  | None =>
      let env_key := upper name in
      match environ w !! env_key with
      | Some v => (Return (JStr v), log)
      | None =>
          let local := _read_local w in
          match lookup_local local name with
          | Raise e => (Raise e, log)
          | Return (Some v) => (Return v, log)
          | Return None =>
              let '(v, log) := get_remote self name w log in
              (Return v, log)
          end
      end
  end.
End MCPClient.

(** ** The rest of the MCP client: [_fetch_remote], [get_all], [get] *)

(** The exceptions that leave [_fetch_remote], [get_all] and [get]. *)
Inductive raised :=
| RuntimeError (msg : string)
| RequestException                   (* requests.get itself raised *)
| HTTPError (status_code : Z)        (* raise_for_status *)
| JSONDecodeError                    (* resp.json() raised *)
| AttributeError (msg : string).

(** What one call depends on besides the client and the world: the requests
    sent so far and how often the clock has been read.  [clock n] is what
    the n-th call of [int(time.time())] returns. *)
Record Run := {
  sent : list http_request;
  reads : nat
}.

Module Config.

(** [self._now()] *)
Definition _now (clock : nat -> Z) (run : Run) : Z * Run :=
  (clock (reads run), {| sent := sent run; reads := S (reads run) |}).

(** [resp.raise_for_status()] raises for a status in 400..599. *)
Definition raise_for_status (status_code : Z) : bool :=
  (400 <=? status_code) && (status_code <? 600).

(** The request [_fetch_remote] sends. *)
Definition context_request (self : MCPClient.t) (u : string) : http_request :=
  {| method := GET;
     target := rstrip_slash u +:+ "/context";
     bearer := if truthy_str (MCPClient.token self)
               then JStr <$> MCPClient.token self else None |}.

(** [self._fetch_remote()] *)
Definition _fetch_remote (self : MCPClient.t) (w : World) (run : Run)
    : (raised + json) * Run :=
  match MCPClient.url self with
  | Some u =>
      if truthy_str (MCPClient.url self) then
        let '(resp, log) := send w (context_request self u) (sent run) in
        let run := {| sent := log; reads := reads run |} in
        match resp with
        | Failed => (inl RequestException, run)
        | Response status_code body =>
            if raise_for_status status_code then (inl (HTTPError status_code), run)
            else
              match body with
              | Some data => (inr data, run)
              | None => (inl JSONDecodeError, run)
              end
        end
      else (inl (RuntimeError "MCP URL not configured"), run)
  | None => (inl (RuntimeError "MCP URL not configured"), run)
  end.

(** [{k: v for k, v in os.environ.items() if k.startswith("CENTRAL_")}] *)
Definition central_env (w : World) : gmap string json :=
  JStr <$> filter (fun kv : string * string => String.prefix "CENTRAL_" kv.1 = true)
                  (environ w).

(** [self._cache = {"data": data, "ts": self._now()}] *)
Definition store (self : MCPClient.t) (data : json) (clock : nat -> Z) (run : Run)
    : MCPClient.t * Run :=
  let '(ts, run) := _now clock run in
  ({| MCPClient.url := MCPClient.url self;
      MCPClient.token := MCPClient.token self;
      MCPClient.cache_ttl := MCPClient.cache_ttl self;
      MCPClient._cache := (data, ts) |}, run).

(** The test that opens [get_all]; the clock is read only when the cached
    data is truthy ([and] short-circuits). *)
Definition cache_hit (self : MCPClient.t) (clock : nat -> Z) (run : Run) : bool * Run :=
  if truthy (fst (MCPClient._cache self)) then
    let '(now, run) := _now clock run in
    (now - snd (MCPClient._cache self) <? MCPClient.cache_ttl self, run)
  else (false, run).

(** [self.get_all()]: the value returned or the exception raised, the
    client with its cache as the call leaves it, and the run. *)
Definition get_all (self : MCPClient.t) (w : World) (clock : nat -> Z) (run : Run)
    : (raised + json) * MCPClient.t * Run :=
  let '(hit, run) := cache_hit self clock run in
  if hit then (inr (fst (MCPClient._cache self)), self, run)
  else
    (* 1) env vars starting with CENTRAL_ *)
    let env_obj := JObj (central_env w) in
    if truthy env_obj then
      let '(self, run) := store self env_obj clock run in
      (inr env_obj, self, run)
    else
      (* 2) local file *)
      let local := MCPClient._read_local w in
      if truthy local then
        let '(self, run) := store self local clock run in
        (inr local, self, run)
      else
        (* 3) remote *)
        match _fetch_remote self w run with
        | (inl e, run) => (inl e, self, run)
        | (inr remote, run) =>
            let '(self, run) := store self remote clock run in
            (inr remote, self, run)
        end.

(** [allcfg.get(key)]: only a dict has [get]. *)
Definition dict_get (allcfg : json) (key : string) : raised + json :=
  match allcfg with
  | JObj members => inr (default JNull (members !! key))
  | _ => inl (AttributeError "object has no attribute 'get'")
  end.

(** [self.get(key)] *)
Definition get (self : MCPClient.t) (key : string) (w : World) (clock : nat -> Z)
    (run : Run) : (raised + json) * MCPClient.t * Run :=
  match get_all self w clock run with
  | (inl e, self, run) => (inl e, self, run)
  | (inr allcfg, self, run) =>
      if truthy allcfg then (dict_get allcfg key, self, run)
      else (inr JNull, self, run)
  end.
End Config.

(** ** The HTTP handlers ([app/main.py]) *)

(** The value of each [BeamType] member, and the member a value stands for
    (how a request's ["type"] string is read). *)
Definition beam_type_value (b : BeamType.t) : string :=
  match b with
  | BeamType.SIMPLY_SUPPORTED => "simply-supported"
  | BeamType.CANTILEVER => "cantilever"
  | BeamType.FIXED_FIXED => "fixed-fixed"
  | BeamType.FIXED_PINNED => "fixed-pinned"
  | BeamType.CONTINUOUS => "continuous"
  end.

Definition beam_type_of_value (s : string) : option BeamType.t :=
  List.find (fun b => bool_decide (beam_type_value b = s))
    [BeamType.SIMPLY_SUPPORTED; BeamType.CANTILEVER; BeamType.FIXED_FIXED;
     BeamType.FIXED_PINNED; BeamType.CONTINUOUS].

Module ValidationResult.
Record t := {
  is_valid : bool;
  errors : list string;
  warnings : list string;
  suggestions : list string
}.
End ValidationResult.

(** What a service call may raise: a [ValueError] (pydantic's
    [ValidationError] is one) or any other [Exception]. *)
Inductive service_exception :=
| RaisedValueError (msg : string)
| RaisedException (msg : string).

Inductive detail :=
| Text (s : string)
| InvalidInput (message : string) (errors : list string).

Record HTTPException := {
  status_code : Z;
  http_detail : detail
}.

(** What an [except] clause of a handler has caught. *)
Inductive caught :=
| FromService (e : service_exception)
| FromHandler (e : HTTPException).

(** A line written to the logger; an error line is its prefix and the
    exception whose [str] follows it. *)
Inductive log_record :=
| Info (text : string)
| Error (prefix : string) (e : caught).

Module Api.
Section Handlers.
(** The two services ([services/validation_service.py] and
    [services/beam_calculator.py]) are not among the sources: they are
    parameters, each a call that may raise and may change the state [S] of
    the services.  [Results] is what the calculator returns. *)
Context {S Results : Type}.
Variable validate_analysis_request :
  AnalysisRequest.t -> S -> (service_exception + ValidationResult.t) * S.
Variable calculate :
  AnalysisRequest.t -> S -> (service_exception + Results) * S.

(** The two [except] clauses of [analyze_beam]: a [ValueError] becomes a
    400 carrying its text, every other exception a 500. *)
Definition analyze_except (e : caught) : HTTPException * log_record :=
  match e with
  | FromService (RaisedValueError msg) =>
      ({| status_code := 400; http_detail := Text msg |},
       Error "Validation error: " e)
  | _ =>
      ({| status_code := 500; http_detail := Text "Internal calculation error" |},
       Error "Calculation error: " e)
  end.

(** [analyze_beam(request)]: the results or the [HTTPException] that leaves
    the handler, the state of the services, and the log lines in order. *)
Definition analyze_beam (request : AnalysisRequest.t) (s : S)
    : (HTTPException + Results) * S * list log_record :=
  let started :=
    Info ("Starting beam analysis for request ID: " +:+ AnalysisRequest.id request) in
  match validate_analysis_request request s with
  | (inl e, s) =>
      let '(exc, line) := analyze_except (FromService e) in
      (inl exc, s, [started; line])
  | (inr validation_result, s) =>
      if negb (ValidationResult.is_valid validation_result) then
        (* raised inside the try, so the except clauses see it *)
        let invalid :=
          {| status_code := 400;
             http_detail := InvalidInput "Invalid input data"
                              (ValidationResult.errors validation_result) |} in
        let '(exc, line) := analyze_except (FromHandler invalid) in
        (inl exc, s, [started; line])
      else
        match calculate request s with
        | (inl e, s) =>
            let '(exc, line) := analyze_except (FromService e) in
            (inl exc, s, [started; line])
        | (inr results, s) =>
            (inr results, s,
             [started;
              Info ("Beam analysis completed for request ID: "
                    +:+ AnalysisRequest.id request)])
        end
  end.

(** [validate_beam_config(request)]: the four fields of the validation
    result, or a 500 for whatever the service raised. *)
Definition validate_beam_config (request : AnalysisRequest.t) (s : S)
    : (HTTPException + ValidationResult.t) * S * list log_record :=
  match validate_analysis_request request s with
  | (inl e, s) =>
      (inl {| status_code := 500; http_detail := Text "Validation service error" |},
       s, [Error "Validation error: " (FromService e)])
  | (inr validation_result, s) =>
      (inr {| ValidationResult.is_valid := ValidationResult.is_valid validation_result;
              ValidationResult.errors := ValidationResult.errors validation_result;
              ValidationResult.warnings := ValidationResult.warnings validation_result;
              ValidationResult.suggestions :=
                ValidationResult.suggestions validation_result |},
       s, [])
  end.
End Handlers.

(** One row of [get_beam_types]. *)
Record beam_type_row := {
  row_id : string;
  row_name : string;
  row_description : string;
  supports_required : nat
}.

(** [get_beam_types()]["beam_types"] *)
Definition beam_types : list beam_type_row :=
  [ {| row_id := "simply-supported"; row_name := "Simply Supported Beam";
       row_description := "คานรองรับแบบง่าย (Pin-Roller)";
       supports_required := 2 |};
    {| row_id := "cantilever"; row_name := "Cantilever Beam";
       row_description := "คานยื่น (Fixed-Free)";
       supports_required := 1 |};
    {| row_id := "fixed-fixed"; row_name := "Fixed-Fixed Beam";
       row_description := "คานยึดแน่นทั้งสองปลาย";
       supports_required := 2 |} ].

(** One row of [get_materials]. *)
Record material_row := {
  material_name : string;
  material_elastic_modulus : float;
  material_density : float;
  material_yield_strength : float
}.

(** [get_materials()]["materials"] *)
Definition materials : list material_row :=
  [ {| material_name := "Steel (A36)"; material_elastic_modulus := 200e9%float;
       material_density := 7850%float; material_yield_strength := 250e6%float |};
    {| material_name := "Concrete (C25/30)"; material_elastic_modulus := 31e9%float;
       material_density := 2400%float; material_yield_strength := 25e6%float |};
    {| material_name := "Aluminum (6061-T6)"; material_elastic_modulus := 69e9%float;
       material_density := 2700%float; material_yield_strength := 276e6%float |};
    {| material_name := "Wood (Douglas Fir)"; material_elastic_modulus := 13e9%float;
       material_density := 500%float; material_yield_strength := 40e6%float |} ].
End Api.

(** ** Vocabulary of the statements *)

(** The flags each kind stands for. *)
Definition flags_of_kind (kind : SupportType.t) : SupportReactions.t :=
  match kind with
  | SupportType.PIN =>
      {| SupportReactions.vertical := true; SupportReactions.horizontal := true;
         SupportReactions.moment := false |}
  | SupportType.ROLLER =>
      {| SupportReactions.vertical := true; SupportReactions.horizontal := false;
         SupportReactions.moment := false |}
  | SupportType.FIXED =>
      {| SupportReactions.vertical := true; SupportReactions.horizontal := true;
         SupportReactions.moment := true |}
  end.

(** The count and kind rules in the words of the specification: two
    supports for a simply-supported or fixed-fixed beam, one support, of kind
    fixed, for a cantilever. *)
Definition support_rules_violated (beam_type : BeamType.t) (supports : list Support.t)
    : bool :=
  match beam_type with
  | BeamType.SIMPLY_SUPPORTED | BeamType.FIXED_FIXED =>
      negb (List.length supports =? 2)%nat
  | BeamType.CANTILEVER =>
      match supports with
      | [support] => negb (bool_decide (Support.type support = SupportType.FIXED))
      | _ => true
      end
  | BeamType.FIXED_PINNED | BeamType.CONTINUOUS => false
  end.

(** A load exceeds the beam when its [position] or its [end_position] is
    greater than the beam length. *)
Definition load_exceeds (beam_length : float) (load : Load.t) : bool :=
  match Load.get_position load with
  | Some p => py_gtb p beam_length
  | None => false
  end
  || match Load.get_end_position load with
     | Some p => py_gtb p beam_length
     | None => false
     end.

Definition support_exceeds (beam_length : float) (support : Support.t) : bool :=
  py_gtb (Support.position support) beam_length.

Definition any_position_exceeds (beam : BeamProperties.t) (supports : SupportConditions.t)
    (loads : LoadConditions.t) : bool :=
  existsb (load_exceeds (BeamProperties.length beam)) (LoadConditions.loads loads)
  || existsb (support_exceeds (BeamProperties.length beam))
             (SupportConditions.supports supports).

(** Only a NaN differs from itself; [is_number x] says [x] is not one. *)
Definition is_number (x : float) : bool := (x =? x)%float.

Definition in_unit_interval (x : float) : Prop :=
  (0 <=? x)%float = true /\ (x <=? 1)%float = true.

(** The configuration is well formed for [get_secret] when it is not an
    object, or its ["secrets"] entry is absent or an object. *)
Definition secrets_well_formed (local : json) : Prop :=
  match local with
  | JObj members =>
      match members !! "secrets" with
      | Some (JObj _) | None => True
      | Some _ => False
      end
  | _ => True
  end.

(** Sample data: the simply-supported beam of 4 m with a central point load
    of the specification's first scenario, and a load placed beyond the end
    of that beam. *)
Module Sample.
Definition section : CrossSection.t :=
  {| CrossSection.type := CrossSectionType.RECTANGULAR;
     CrossSection.width := Some 0.1%float;
     CrossSection.height := Some 0.2%float;
     CrossSection.diameter := None;
     CrossSection.custom_properties := None |}.

Definition steel : Material.t :=
  {| Material.name := "Steel (A36)";
     Material.density := 7850%float;
     Material.yield_strength := 250e6%float |}.

Definition beam : BeamProperties.t :=
  {| BeamProperties.id := "B1";
     BeamProperties.name := "span";
     BeamProperties.length := 4%float;
     BeamProperties.elastic_modulus := 200e9%float;
     BeamProperties.moment_of_inertia := 1e-5%float;
     BeamProperties.cross_section := section;
     BeamProperties.material := steel |}.

Definition support_at (p : float) (kind : SupportType.t) : Support.t :=
  {| Support.position := p; Support.type := kind;
     Support.reactions := flags_of_kind kind |}.

Definition supports : SupportConditions.t :=
  {| SupportConditions.type := BeamType.SIMPLY_SUPPORTED;
     SupportConditions.supports :=
       [support_at 0%float SupportType.PIN; support_at 4%float SupportType.ROLLER] |}.

Definition point_load_at (p : float) : Load.t :=
  Load.Point {| PointLoad.type := LoadType.POINT;
                PointLoad.magnitude := 1000%float;
                PointLoad.position := p;
                PointLoad.direction := Direction.DOWN;
                PointLoad.angle := Some 0%float |}.

Definition central : LoadConditions.t :=
  {| LoadConditions.loads := [point_load_at 2%float] |}.

Definition beyond_the_end : LoadConditions.t :=
  {| LoadConditions.loads := [point_load_at 2%float; point_load_at 5%float] |}.
End Sample.

(** A machine with no matching environment variable, one configuration file
    next to the sources, and a server that cannot be reached. *)
Definition offline (config : json) : World :=
  {| environ := ∅;
     module_dir := "/srv/client/python";
     files := fun path =>
       if bool_decide (path = "/srv/client/python/../../central-mcp-config.json")
       then Content config else NoFile;
     server := fun _ => Failed |}.

(** A machine configured through the environment, with a server that
    refuses the client token on [/secrets] but exchanges it on [/token] for
    a short-lived one that it accepts. *)
Definition vault : World :=
  {| environ := {[ "CENTRAL_MCP_SERVER_URL" := "http://mcp.local/";
                   "CENTRAL_MCP_CLIENT_TOKEN" := "client" ]};
     module_dir := "/srv/client/python";
     files := fun _ => NoFile;
     server := fun requests =>
       match requests with
       | req :: _ =>
           match method req, bearer req with
           | POST, _ => Response 200 (Some (JObj {[ "access_token" := JStr "jwt" ]}))
           | GET, Some (JStr tok) =>
               if bool_decide (tok = "jwt")
               then Response 200 (Some (JObj {[ "value" := JStr "s3cret" ]}))
               else Response 401 None
           | GET, _ => Response 401 None
           end
       | [] => Failed
       end |}.

(** [x <= y] and [x < y] as Python evaluates them on floats. *)
Definition fle (x y : float) : Prop := (x <=? y)%float = true.
Definition flt (x y : float) : Prop := (x <? y)%float = true.


(** What the field constraints and validators of the three load classes
    leave true of a load. *)
Definition load_well_formed (load : Load.t) : Prop :=
  match load with
  | Load.Point l =>
      PointLoad.type l = LoadType.POINT /\
      fle 0 (PointLoad.position l) /\
      match PointLoad.angle l with
      | Some a => fle 0 a /\ fle a 360
      | None => True
      end
  | Load.Distributed l =>
      DistributedLoad.type l = LoadType.DISTRIBUTED /\
      fle 0 (DistributedLoad.start_position l) /\
      flt (DistributedLoad.start_position l) (DistributedLoad.end_position l)
  | Load.Moment l =>
      MomentLoad.type l = LoadType.MOMENT /\
      fle 0 (MomentLoad.position l)
  end.

(** The position a load is checked at lies on the beam. *)
Definition load_within (beam_length : float) (load : Load.t) : Prop :=
  match load with
  | Load.Point l => fle (PointLoad.position l) beam_length
  | Load.Distributed l => fle (DistributedLoad.end_position l) beam_length
  | Load.Moment l => fle (MomentLoad.position l) beam_length
  end.

Definition support_well_formed (s : Support.t) : Prop :=
  fle 0 (Support.position s) /\
  Support.reactions s = flags_of_kind (Support.type s).

(** A support as a request carries it: the three keyword arguments of
    [Support]. *)
Definition raw_support : Type :=
  option float * option SupportType.t * option (result SupportReactions.t).

Definition build_support (raw : raw_support) : result Support.t :=
  Support.init raw.1.1 raw.1.2 raw.2.

(** A clock that advances one second per reading, and a fresh run. *)
Definition ticking (n : nat) : Z := 1000 + Z.of_nat n.

Definition fresh_run : Run := {| sent := []; reads := 0 |}.

(** A machine with nothing in its environment and no local file, and a
    server that answers every request with an empty object. *)
Definition empty_remote : World :=
  {| environ := ∅;
     module_dir := "/srv/client/python";
     files := fun _ => NoFile;
     server := fun _ => Response 200 (Some (JObj ∅)) |}.

(** The answer of [analyze_beam] to everything but a [ValueError]. *)
Definition internal_error : HTTPException :=
  {| status_code := 500; http_detail := Text "Internal calculation error" |}.

(** A validation service that rejects every request and counts its calls,
    and a calculator that fails whenever it is run. *)
Definition rejecting (request : AnalysisRequest.t) (calls : nat)
    : (service_exception + ValidationResult.t) * nat :=
  (inr {| ValidationResult.is_valid := false;
          ValidationResult.errors := ["Beam is not supported at both ends"];
          ValidationResult.warnings := [];
          ValidationResult.suggestions := [] |}, S calls).

Definition failing (request : AnalysisRequest.t) (calls : nat)
    : (service_exception + string) * nat :=
  (inl (RaisedException "singular system"), S calls).

Definition sample_request : AnalysisRequest.t :=
  {| AnalysisRequest.id := "R1";
     AnalysisRequest.timestamp := 0;
     AnalysisRequest.beam := Sample.beam;
     AnalysisRequest.supports := Sample.supports;
     AnalysisRequest.loads := Sample.central;
     AnalysisRequest.analysis_options := AnalysisOptions.default |}.


(** * Properties *)

(** ** Float comparison

    The two facts about [<] and [<=] on binary64 that the validators rely
    on, from the specification of the primitive operations. *)

Lemma compare_cont_flip (p q : positive) :
  PosDef.Pos.compare_cont Eq q p = CompOpp (PosDef.Pos.compare_cont Eq p q).
Proof. exact (eq_sym (Pos.compare_cont_antisym p q Eq)). Qed.

Lemma SFcompare_antisym (x y : spec_float) :
  SFcompare y x = option_map CompOpp (SFcompare x y).
Proof.
  destruct x as [sx|sx| |sx mx ex], y as [sy|sy| |sy my ey]; simpl;
    try reflexivity; try (destruct sx; reflexivity); try (destruct sy; reflexivity);
    try (destruct sx, sy; reflexivity).
  destruct sx, sy; simpl; try reflexivity;
    rewrite (Z.compare_antisym ex ey);
    destruct (ex ?= ey) eqn:E; simpl; try reflexivity;
    rewrite (compare_cont_flip mx my); try rewrite CompOpp_involutive; reflexivity.
Qed.

Lemma float_ltb_not_leb (x y : float) :
  (x <? y)%float = true -> (y <=? x)%float = false.
Proof.
  rewrite ltb_spec, leb_spec. unfold SFltb, SFleb.
  rewrite (SFcompare_antisym (Prim2SF x) (Prim2SF y)).
  destruct (SFcompare (Prim2SF x) (Prim2SF y)) as [[ | | ]|]; simpl; congruence.
Qed.

Lemma float_leb_not_ltb (x y : float) :
  (x <=? y)%float = true -> (y <? x)%float = false.
Proof.
  intros H. destruct (y <? x)%float eqn:E; [|reflexivity].
  apply float_ltb_not_leb in E. congruence.
Qed.

(** ** Shared facts about the field combinators *)

Lemma float_size_ge_ok (bound v v' : float) :
  float_size_validator
    {| gt := None; ge := Some bound; lt := None; le := None; extra := [] |} v = inr v' ->
  v' = v /\ (bound <=? v)%float = true.
Proof.
  unfold float_size_validator, unless, py_geb; simpl.
  destruct (bound <=? v)%float; simpl; [|discriminate].
  intros [= <-]. split; reflexivity.
Qed.

Lemma float_size_unconstrained (fi : FieldInfo float) (v : float) :
  gt fi = None -> ge fi = None -> lt fi = None -> le fi = None ->
  float_size_validator fi v = inr v.
Proof.
  intros Hgt Hge Hlt Hle. unfold float_size_validator.
  rewrite Hgt, Hge, Hlt, Hle. reflexivity.
Qed.

Lemma list_items_all_ok {A} (i : nat) (l : list A) :
  list_items i (Ok <$> l) = inr l.
Proof.
  revert i. induction l as [|a l IH]; intros i; simpl; [reflexivity|].
  rewrite IH. reflexivity.
Qed.

(** ** Support: the kind decides the reaction flags *)

Lemma validate_reactions_overwrites (v : SupportReactions.t) (kind : SupportType.t) :
  Support.validate_reactions v (Some kind) = inr (flags_of_kind kind).
Proof. destruct kind; reflexivity. Qed.

(** C1.  Every support that is constructed has the kind it was given, and
    its reaction flags are the ones of that kind (pin: vertical and
    horizontal; roller: vertical only; fixed: all three), whatever flags the
    caller supplied. *)
Theorem support_flags_determined_by_kind
    (position : option float) (type : option SupportType.t)
    (reactions : option (result SupportReactions.t)) (s : Support.t) :
  Support.init position type reactions = Ok s ->
  type = Some (Support.type s) /\
  Support.reactions s = flags_of_kind (Support.type s).
Proof.
  unfold Support.init.
  destruct position as [p|], type as [kind|], reactions as [[v|es]|]; simpl;
    try discriminate;
    try (destruct (float_size_validator ge_zero _); discriminate).
  destruct (float_size_validator ge_zero p) as [es|p']; simpl.
  - rewrite validate_reactions_overwrites. discriminate.
  - rewrite validate_reactions_overwrites. intros [= <-]. simpl. auto.
Qed.

Lemma support_flags_determined_by_kind_witness :
  let supplied := {| SupportReactions.vertical := false;
                     SupportReactions.horizontal := false;
                     SupportReactions.moment := true |} in
  let built := {| Support.position := 2%float; Support.type := SupportType.ROLLER;
                  Support.reactions := flags_of_kind SupportType.ROLLER |} in
  Support.init (Some 2%float) (Some SupportType.ROLLER) (Some (Ok supplied)) = Ok built /\
  Support.reactions built =
    {| SupportReactions.vertical := true; SupportReactions.horizontal := false;
       SupportReactions.moment := false |}.
Proof.
  split; [reflexivity|].
  exact (proj2 (support_flags_determined_by_kind
                  (Some 2%float) (Some SupportType.ROLLER)
                  (Some (Ok {| SupportReactions.vertical := false;
                               SupportReactions.horizontal := false;
                               SupportReactions.moment := true |}))
                  _ eq_refl)).
Defined.

Lemma support_init_accepts (p : float) (kind : SupportType.t) (v : SupportReactions.t) :
  (0 <=? p)%float = true ->
  Support.init (Some p) (Some kind) (Some (Ok v)) =
  Ok {| Support.position := p; Support.type := kind;
        Support.reactions := flags_of_kind kind |}.
Proof.
  intros Hp. unfold Support.init, float_size_validator, unless, py_geb; simpl.
  rewrite Hp; simpl. rewrite validate_reactions_overwrites. reflexivity.
Qed.

(** ** SupportConditions: support count and kind per beam type *)

Lemma validate_supports_spec (beam_type : BeamType.t) (v : list Support.t) :
  (support_rules_violated beam_type v = false ->
     SupportConditions.validate_supports v (Some beam_type) = inr v) /\
  (support_rules_violated beam_type v = true ->
     exists msg, SupportConditions.validate_supports v (Some beam_type)
                 = raise (ValueError msg)).
Proof.
  unfold SupportConditions.validate_supports.
  destruct beam_type; simpl.
  - destruct (List.length v =? 2)%nat; simpl; split; intros; try discriminate; eauto.
  - destruct v as [|s [|s' v]]; simpl; split; intros H; try discriminate; eauto.
    + destruct (decide (Support.type s = SupportType.FIXED)) as [E|E].
      * rewrite bool_decide_eq_false_2 by (intros N; apply N, E). reflexivity.
      * rewrite bool_decide_eq_false_2 in H by exact E. discriminate.
    + destruct (decide (Support.type s = SupportType.FIXED)) as [E|E].
      * rewrite bool_decide_eq_true_2 in H by exact E. discriminate.
      * rewrite bool_decide_eq_true_2 by exact E. eauto.
  - destruct (List.length v =? 2)%nat; simpl; split; intros; try discriminate; eauto.
  - split; intros; [reflexivity|discriminate].
  - split; intros; [reflexivity|discriminate].
Qed.

(** C2, as the specification states it, fails on the empty list: no count or
    kind rule speaks about a continuous beam, yet a continuous beam without
    supports is rejected ([min_items=1]). *)
Lemma support_conditions_empty_list_rejected :
  support_rules_violated BeamType.CONTINUOUS [] = false /\
  SupportConditions.init (Some BeamType.CONTINUOUS) (Some []) =
  ValidationError [([Key "supports"], ListMinLengthError 1)].
Proof. split; reflexivity. Qed.

Lemma support_conditions_init_unfold (beam_type : BeamType.t) (supports : list Support.t) :
  SupportConditions.init (Some beam_type) (Some (Ok <$> supports)) =
  match (if (List.length supports <? 1)%nat
         then raise (ListMinLengthError 1)
         else SupportConditions.validate_supports supports (Some beam_type)) with
  | inr ss => Ok {| SupportConditions.type := beam_type; SupportConditions.supports := ss |}
  | inl es => ValidationError (field_errors "supports" (inl es : field (list Support.t)))
  end.
Proof.
  unfold SupportConditions.init, list_length_validator, required, plain, values_get.
  rewrite length_fmap.
  destruct (List.length supports <? 1)%nat; [reflexivity|].
  unfold bind_field. cbv beta iota. rewrite list_items_all_ok.
  destruct (SupportConditions.validate_supports supports (Some beam_type)); reflexivity.
Qed.

(** C2, amended.  Built from a beam type and a list of valid supports,
    SupportConditions is rejected exactly when the list is empty or the count
    and kind rules are violated, and is otherwise accepted with that type and
    those supports. *)
Theorem support_conditions_rejected_iff
    (beam_type : BeamType.t) (supports : list Support.t) :
  let built := SupportConditions.init (Some beam_type) (Some (Ok <$> supports)) in
  ((exists errors, built = ValidationError errors) <->
     supports = [] \/ support_rules_violated beam_type supports = true) /\
  (built = Ok {| SupportConditions.type := beam_type;
                 SupportConditions.supports := supports |} <->
     supports <> [] /\ support_rules_violated beam_type supports = false).
Proof.
  cbv zeta. rewrite support_conditions_init_unfold.
  destruct supports as [|s rest].
  - simpl. split; split.
    + intros _. left. reflexivity.
    + intros _. eexists. reflexivity.
    + discriminate.
    + intros [N _]. congruence.
  - change (List.length (s :: rest) <? 1)%nat with false. cbv iota.
    destruct (validate_supports_spec beam_type (s :: rest)) as [Hok Hbad].
    destruct (support_rules_violated beam_type (s :: rest)) eqn:V.
    + destruct (Hbad eq_refl) as [msg ->]. simpl. split; split.
      * intros _. right. reflexivity.
      * intros _. eexists. reflexivity.
      * discriminate.
      * intros [_ N]. discriminate.
    + rewrite (Hok eq_refl). split; split.
      * intros [errors N]. discriminate.
      * intros [N|N]; discriminate.
      * intros _. split; [discriminate|reflexivity].
      * intros _. reflexivity.
Qed.

(** ** AnalysisRequest: positions within the beam *)

Lemma check_loads_spec (beam_length : float) (loads : list Load.t) :
  match AnalysisRequest.check_loads beam_length loads with
  | Some _ => existsb (load_exceeds beam_length) loads = true
  | None => existsb (load_exceeds beam_length) loads = false
  end.
Proof.
  induction loads as [|load rest IH]; simpl; [reflexivity|].
  unfold load_exceeds at 1 3. unfold AnalysisRequest.exceeds.
  destruct (Load.get_position load) as [p|], (Load.get_end_position load) as [q|];
    simpl;
    repeat match goal with
    | |- context [PrimFloat.ltb ?a ?b] => destruct (PrimFloat.ltb a b); simpl
    end;
    try reflexivity; exact IH.
Qed.

Lemma check_supports_spec (beam_length : float) (supports : list Support.t) :
  match AnalysisRequest.check_supports beam_length supports with
  | Some _ => existsb (support_exceeds beam_length) supports = true
  | None => existsb (support_exceeds beam_length) supports = false
  end.
Proof.
  induction supports as [|s rest IH]; simpl; [reflexivity|].
  unfold support_exceeds at 1 3. simpl.
  destruct (PrimFloat.ltb beam_length (Support.position s)); simpl;
    [reflexivity|exact IH].
Qed.

Lemma validate_load_positions_spec (v : LoadConditions.t) (beam : BeamProperties.t) :
  if existsb (load_exceeds (BeamProperties.length beam)) (LoadConditions.loads v)
  then exists e, AnalysisRequest.validate_load_positions v (Some beam) = raise e
  else AnalysisRequest.validate_load_positions v (Some beam) = inr v.
Proof.
  unfold AnalysisRequest.validate_load_positions.
  pose proof (check_loads_spec (BeamProperties.length beam) (LoadConditions.loads v)) as H.
  destruct (AnalysisRequest.check_loads _ _) as [e|]; rewrite H; eauto.
Qed.

Lemma validate_support_positions_spec (v : SupportConditions.t) (beam : BeamProperties.t) :
  if existsb (support_exceeds (BeamProperties.length beam)) (SupportConditions.supports v)
  then exists e, AnalysisRequest.validate_support_positions v (Some beam) = raise e
  else AnalysisRequest.validate_support_positions v (Some beam) = inr v.
Proof.
  unfold AnalysisRequest.validate_support_positions.
  pose proof (check_supports_spec (BeamProperties.length beam)
                (SupportConditions.supports v)) as H.
  destruct (AnalysisRequest.check_supports _ _) as [e|]; rewrite H; eauto.
Qed.

Lemma positions_checked_against_beam_length_aux
    (beam : BeamProperties.t) (supports : SupportConditions.t) (loads : LoadConditions.t) :
  (any_position_exceeds beam supports loads = true ->
     (exists e, AnalysisRequest.validate_load_positions loads (Some beam) = raise e) \/
     (exists e, AnalysisRequest.validate_support_positions supports (Some beam) = raise e)) /\
  (any_position_exceeds beam supports loads = false ->
     AnalysisRequest.validate_load_positions loads (Some beam) = inr loads /\
     AnalysisRequest.validate_support_positions supports (Some beam) = inr supports).
Proof.
  unfold any_position_exceeds.
  pose proof (validate_load_positions_spec loads beam) as HL.
  pose proof (validate_support_positions_spec supports beam) as HS.
  split; intros H.
  - apply orb_true_iff in H as [H|H].
    + rewrite H in HL. auto.
    + rewrite H in HS. auto.
  - apply orb_false_iff in H as [H1 H2]. rewrite H1 in HL. rewrite H2 in HS. auto.
Qed.

(** C3.  For a request with a valid beam, supports and loads: when a load's
    position or end position, or a support's position, is greater than the
    beam length, the request is not constructed; otherwise both position
    validators return their value unchanged. *)
Theorem positions_checked_against_beam_length
    (now : Z) (id : option string) (timestamp : option Z)
    (beam : BeamProperties.t) (supports : SupportConditions.t)
    (loads : LoadConditions.t) (analysis_options : option (result AnalysisOptions.t)) :
  (any_position_exceeds beam supports loads = true ->
     exists errors,
       AnalysisRequest.init now id timestamp (Some (Ok beam)) (Some (Ok supports))
         (Some (Ok loads)) analysis_options = ValidationError errors) /\
  (any_position_exceeds beam supports loads = false ->
     AnalysisRequest.validate_load_positions loads (Some beam) = inr loads /\
     AnalysisRequest.validate_support_positions supports (Some beam) = inr supports).
Proof.
  destruct (positions_checked_against_beam_length_aux beam supports loads) as [Hbad Hok].
  split; [intros H|exact Hok].
  unfold AnalysisRequest.init, required, nested, bind_field, values_get.
  destruct (Hbad H) as [[e ->]|[e ->]].
  - destruct id, timestamp,
      (AnalysisRequest.validate_support_positions supports (Some beam));
      simpl; eauto.
  - destruct id, timestamp; simpl; eauto.
Qed.

Lemma analysis_request_accepts
    (now : Z) (id : string) (timestamp : option Z)
    (beam : BeamProperties.t) (supports : SupportConditions.t)
    (loads : LoadConditions.t) (options : AnalysisOptions.t) :
  any_position_exceeds beam supports loads = false ->
  AnalysisRequest.init now (Some id) timestamp (Some (Ok beam)) (Some (Ok supports))
    (Some (Ok loads)) (Some (Ok options)) =
  Ok {| AnalysisRequest.id := id;
        AnalysisRequest.timestamp := default now timestamp;
        AnalysisRequest.beam := beam;
        AnalysisRequest.supports := supports;
        AnalysisRequest.loads := loads;
        AnalysisRequest.analysis_options := options |}.
Proof.
  intros H.
  destruct (proj2 (positions_checked_against_beam_length_aux beam supports loads) H)
    as [HL HS].
  unfold AnalysisRequest.init, required, nested, bind_field, values_get.
  rewrite HL, HS. destruct timestamp; reflexivity.
Qed.

(** Read as an invariant: no position of a constructed request exceeds the
    length of its beam. *)
Lemma analysis_request_positions_invariant
    (now : Z) (id : option string) (timestamp : option Z)
    (beam : option (result BeamProperties.t))
    (supports : option (result SupportConditions.t))
    (loads : option (result LoadConditions.t))
    (analysis_options : option (result AnalysisOptions.t)) (r : AnalysisRequest.t) :
  AnalysisRequest.init now id timestamp beam supports loads analysis_options = Ok r ->
  any_position_exceeds (AnalysisRequest.beam r) (AnalysisRequest.supports r)
    (AnalysisRequest.loads r) = false.
Proof.
  unfold AnalysisRequest.init, required, nested, bind_field, values_get,
    with_default, plain.
  destruct beam as [[b|eb]|], supports as [[sc|es]|], loads as [[lc|el]|];
    try (repeat match goal with
         | |- context [AnalysisRequest.validate_support_positions ?v ?x] =>
             destruct (AnalysisRequest.validate_support_positions v x)
         | |- context [AnalysisRequest.validate_load_positions ?v ?x] =>
             destruct (AnalysisRequest.validate_load_positions v x)
         end;
         destruct id, timestamp, analysis_options as [[o|eo]|]; simpl; discriminate).
  destruct (positions_checked_against_beam_length_aux b sc lc) as [Hbad Hok].
  destruct (any_position_exceeds b sc lc) eqn:E.
  - destruct (Hbad eq_refl) as [[e ->]|[e ->]];
      try destruct (AnalysisRequest.validate_support_positions sc (Some b));
      destruct id, timestamp, analysis_options as [[o|eo]|]; simpl; discriminate.
  - destruct (Hok eq_refl) as [-> ->].
    destruct id, timestamp, analysis_options as [[o|eo]|]; simpl;
      intros H; try discriminate H; injection H as <-; exact E.
Qed.

Lemma positions_checked_against_beam_length_witness :
  (exists errors,
     AnalysisRequest.init 0 (Some "R1") None (Some (Ok Sample.beam))
       (Some (Ok Sample.supports)) (Some (Ok Sample.beyond_the_end)) None
     = ValidationError errors) /\
  (AnalysisRequest.validate_load_positions Sample.central (Some Sample.beam)
     = inr Sample.central /\
   AnalysisRequest.validate_support_positions Sample.supports (Some Sample.beam)
     = inr Sample.supports).
Proof.
  split.
  - exact (proj1 (positions_checked_against_beam_length 0 (Some "R1") None
                    Sample.beam Sample.supports Sample.beyond_the_end None) eq_refl).
  - exact (proj2 (positions_checked_against_beam_length 0 (Some "R1") None
                    Sample.beam Sample.supports Sample.central None) eq_refl).
Defined.

Example request_beyond_the_end :
  AnalysisRequest.init 0 (Some "R1") None (Some (Ok Sample.beam))
    (Some (Ok Sample.supports)) (Some (Ok Sample.beyond_the_end)) None
  = ValidationError
      [([Key "loads"], PositionExceeds "Load position" 5%float 4%float)].
Proof. reflexivity. Qed.

(** ** DistributedLoad: the end lies after the start *)

(** C4.  A distributed load whose end position is less than or equal to its
    start position is not constructed, whatever the other fields are; when
    the end position is greater than the start position the validator
    returns it unchanged. *)
Theorem distributed_load_end_after_start
    (type : option LoadType.t) (start_magnitude end_magnitude : option float)
    (direction : option Direction.t) (start_position end_position : float) :
  ((end_position <=? start_position)%float = true ->
     exists errors,
       DistributedLoad.init type start_magnitude end_magnitude
         (Some start_position) (Some end_position) direction
       = ValidationError errors) /\
  ((start_position <? end_position)%float = true ->
     DistributedLoad.validate_positions end_position (Some start_position)
     = inr end_position).
Proof.
  split; intros H.
  - unfold DistributedLoad.init, required, with_default, bind_field, values_get,
      DistributedLoad.validate_positions, float_size_validator, unless, literal,
      py_geb; simpl.
    destruct (0 <=? start_position)%float, (0 <=? end_position)%float; simpl;
      rewrite ?H;
      destruct type as [[]|], start_magnitude, end_magnitude; simpl; eauto.
  - unfold DistributedLoad.validate_positions. simpl.
    rewrite (float_ltb_not_leb _ _ H). reflexivity.
Qed.

Lemma distributed_load_end_after_start_witness :
  (exists errors,
     DistributedLoad.init None (Some 100%float) (Some 100%float)
       (Some 3%float) (Some 3%float) None = ValidationError errors) /\
  DistributedLoad.validate_positions 3%float (Some 1%float) = inr 3%float.
Proof.
  split.
  - exact (proj1 (distributed_load_end_after_start None (Some 100%float)
                    (Some 100%float) None 3%float 3%float) eq_refl).
  - exact (proj2 (distributed_load_end_after_start None None None None
                    1%float 3%float) eq_refl).
Defined.

Lemma distributed_load_accepts
    (start_magnitude end_magnitude start_position end_position : float) :
  (0 <=? start_position)%float = true ->
  (start_position <? end_position)%float = true ->
  (0 <=? end_position)%float = true ->
  DistributedLoad.init None (Some start_magnitude) (Some end_magnitude)
    (Some start_position) (Some end_position) None =
  Ok {| DistributedLoad.type := LoadType.DISTRIBUTED;
        DistributedLoad.start_magnitude := start_magnitude;
        DistributedLoad.end_magnitude := end_magnitude;
        DistributedLoad.start_position := start_position;
        DistributedLoad.end_position := end_position;
        DistributedLoad.direction := Direction.DOWN |}.
Proof.
  intros Hs Hlt He.
  unfold DistributedLoad.init, required, bind_field, values_get, with_default,
    DistributedLoad.validate_positions, float_size_validator, unless, py_geb; simpl.
  rewrite Hs, He; simpl. rewrite (float_ltb_not_leb _ _ Hlt). reflexivity.
Qed.

(** ** CriticalPoint: the utilization ratio *)

Lemma SFcompare_numbers (x y : spec_float) :
  SFeqb x x = true -> SFeqb y y = true -> exists c, SFcompare x y = Some c.
Proof.
  unfold SFeqb.
  destruct x as [sx|sx| |sx mx ex], y as [sy|sy| |sy my ey]; simpl;
    intros Hx Hy; try discriminate; eauto.
Qed.

Lemma float_not_ltb_leb (x y : float) :
  is_number x = true -> is_number y = true ->
  (x <? y)%float = false -> (y <=? x)%float = true.
Proof.
  unfold is_number. rewrite !FloatAxioms.eqb_spec, ltb_spec, leb_spec. intros Hx Hy.
  destruct (SFcompare_numbers _ _ Hx Hy) as [c Hc].
  unfold SFltb, SFleb. rewrite (SFcompare_antisym (Prim2SF x) (Prim2SF y)), Hc.
  destruct c; simpl; congruence.
Qed.

Lemma clamp01_in_unit_interval (x : float) :
  is_number x = true -> in_unit_interval (SafetyAssessor.clamp01 x).
Proof.
  intros Hx. unfold SafetyAssessor.clamp01, in_unit_interval, py_gtb. simpl.
  destruct (x <? 0)%float eqn:E0; [split; reflexivity|].
  destruct (1 <? x)%float eqn:E1; [split; reflexivity|].
  split.
  - apply float_not_ltb_leb; [exact Hx|reflexivity|exact E0].
  - apply float_not_ltb_leb; [reflexivity|exact Hx|exact E1].
Qed.

Lemma float_size_unit_interval_ok (v v' : float) :
  float_size_validator unit_interval v = inr v' -> v' = v /\ in_unit_interval v.
Proof.
  unfold float_size_validator, unless, py_geb, in_unit_interval; simpl.
  destruct (0 <=? v)%float; simpl; [|discriminate].
  destruct (v <=? 1)%float; simpl; [|discriminate].
  intros [= <-]. auto.
Qed.

Lemma critical_point_init_ok
    (position : float) (type : string) (actual allowable ratio : float)
    (severity : string) (cp : CriticalPoint.t) :
  CriticalPoint.init (Some position) (Some type) (Some actual) (Some allowable)
    (Some ratio) (Some severity) = Ok cp ->
  cp = {| CriticalPoint.position := position; CriticalPoint.type := type;
          CriticalPoint.actual_value := actual;
          CriticalPoint.allowable_value := allowable;
          CriticalPoint.utilization_ratio := ratio;
          CriticalPoint.severity := severity |} /\
  in_unit_interval ratio.
Proof.
  unfold CriticalPoint.init, required, one_of.
  rewrite !float_size_unconstrained by reflexivity.
  destruct (float_size_validator unit_interval ratio) as [es|r] eqn:Er.
  - repeat case_bool_decide; simpl; discriminate.
  - apply float_size_unit_interval_ok in Er as [-> Hr].
    repeat case_bool_decide; simpl; try discriminate.
    intros [= <-]. auto.
Qed.

(** C5.  Every critical point that is constructed has a utilization ratio
    between 0 and 1.  A critical point the Safety Assessor reports carries
    the ratio actual/allowable clamped to [0,1], and its severity is the
    bucket of that ratio under the fixed thresholds 0.5, 0.75 and 0.9. *)
Theorem critical_point_utilization :
  (forall position type actual_value allowable_value utilization_ratio severity cp,
     CriticalPoint.init position type actual_value allowable_value
       utilization_ratio severity = Ok cp ->
     in_unit_interval (CriticalPoint.utilization_ratio cp)) /\
  (forall position kind sample allowable cp,
     SafetyAssessor.critical_point position kind sample allowable = Ok cp ->
     CriticalPoint.utilization_ratio cp =
       SafetyAssessor.clamp01
         (CriticalPoint.actual_value cp / CriticalPoint.allowable_value cp)%float /\
     in_unit_interval (CriticalPoint.utilization_ratio cp) /\
     CriticalPoint.severity cp =
       SafetyAssessor.severity_of (CriticalPoint.utilization_ratio cp)).
Proof.
  split.
  - intros [p|] [ty|] [a|] [al|] [r|] [s|] cp H;
      try (unfold CriticalPoint.init, required, one_of in H;
           rewrite ?float_size_unconstrained in H by reflexivity;
           repeat case_bool_decide; simpl in H;
           try destruct (float_size_validator unit_interval _);
           simpl in H; discriminate).
    apply critical_point_init_ok in H as [-> Hr]. exact Hr.
  - intros position kind sample allowable cp H.
    unfold SafetyAssessor.critical_point in H.
    apply critical_point_init_ok in H as [-> Hr]. simpl. auto.
Qed.

Lemma critical_point_utilization_witness :
  let cp := {| CriticalPoint.position := 2%float; CriticalPoint.type := "stress";
               CriticalPoint.actual_value := 100e6%float;
               CriticalPoint.allowable_value := 200e6%float;
               CriticalPoint.utilization_ratio := 0.5%float;
               CriticalPoint.severity := "medium" |} in
  in_unit_interval 0.25%float /\
  SafetyAssessor.critical_point 2%float "stress" (-100e6)%float 200e6%float = Ok cp /\
  CriticalPoint.utilization_ratio cp =
    SafetyAssessor.clamp01
      (CriticalPoint.actual_value cp / CriticalPoint.allowable_value cp)%float /\
  in_unit_interval (CriticalPoint.utilization_ratio cp) /\
  CriticalPoint.severity cp =
    SafetyAssessor.severity_of (CriticalPoint.utilization_ratio cp).
Proof.
  cbv zeta. split; [|split; [reflexivity|]].
  - exact (proj1 critical_point_utilization (Some 2%float) (Some "stress")
             (Some 1%float) (Some 4%float) (Some 0.25%float) (Some "low") _ eq_refl).
  - exact (proj2 critical_point_utilization 2%float "stress" (-100e6)%float
             200e6%float _ eq_refl).
Defined.

(** The assessor's point is constructed whenever the quantity is one of the
    four kinds and the quotient is a number (0/0 is not). *)
Lemma assessor_point_constructed (position : float) (kind : string)
    (sample allowable : float) :
  kind ∈ ["moment"; "shear"; "deflection"; "stress"] ->
  is_number (PrimFloat.abs sample / allowable)%float = true ->
  exists cp, SafetyAssessor.critical_point position kind sample allowable = Ok cp.
Proof.
  intros Hk Hn. unfold SafetyAssessor.critical_point.
  destruct (clamp01_in_unit_interval _ Hn) as [H0 H1].
  unfold CriticalPoint.init, required, one_of.
  rewrite !float_size_unconstrained by reflexivity.
  rewrite bool_decide_eq_true_2 by exact Hk.
  unfold float_size_validator, unless, py_geb. simpl.
  rewrite H0, H1. simpl.
  unfold SafetyAssessor.severity_of.
  repeat match goal with |- context [py_ltb ?a ?b] => destruct (py_ltb a b) end;
    simpl; eauto.
Qed.

(** A critical point can be constructed with a ratio and a severity that no
    actual and allowable value explain: the model checks the range of the
    ratio only, the relation between the fields is the producer's. *)
Example critical_point_fields_independent :
  CriticalPoint.init (Some 0%float) (Some "stress") (Some 1%float) (Some 2%float)
    (Some 1%float) (Some "low") =
  Ok {| CriticalPoint.position := 0%float; CriticalPoint.type := "stress";
        CriticalPoint.actual_value := 1%float; CriticalPoint.allowable_value := 2%float;
        CriticalPoint.utilization_ratio := 1%float; CriticalPoint.severity := "low" |}.
Proof. reflexivity. Qed.

Example critical_point_ratio_out_of_range :
  CriticalPoint.init (Some 0%float) (Some "stress") (Some 3%float) (Some 2%float)
    (Some 1.5%float) (Some "critical") =
  ValidationError [([Key "utilization_ratio"], NumberNotLeError 1%float)].
Proof. reflexivity. Qed.

(** ** PointLoad and MomentLoad: the magnitude *)

(** [ne=0] constrains nothing: the magnitude field accepts every float. *)
Lemma magnitude_never_rejected (magnitude : float) :
  float_size_validator ne_zero magnitude = inr magnitude.
Proof. apply float_size_unconstrained; reflexivity. Qed.

(** C6.  What the code does with a zero magnitude: a point load and a moment
    load of magnitude 0 are both constructed, although the specification
    requires a magnitude other than 0 (and the source asks for it with
    [ne=0]). *)
Theorem zero_magnitude_load_constructed :
  PointLoad.init None (Some 0%float) (Some 1%float) None None =
    Ok {| PointLoad.type := LoadType.POINT; PointLoad.magnitude := 0%float;
          PointLoad.position := 1%float; PointLoad.direction := Direction.DOWN;
          PointLoad.angle := Some 0%float |} /\
  MomentLoad.init None (Some 0%float) (Some 1%float) None =
    Ok {| MomentLoad.type := LoadType.MOMENT; MomentLoad.magnitude := 0%float;
          MomentLoad.position := 1%float; MomentLoad.direction := Direction.CLOCKWISE |}.
Proof. split; reflexivity. Qed.

(** The other half of C6 holds: a magnitude other than 0 passes, as does
    every magnitude. *)
Lemma point_load_accepts (magnitude position : float) :
  (0 <=? position)%float = true ->
  PointLoad.init None (Some magnitude) (Some position) None None =
  Ok {| PointLoad.type := LoadType.POINT; PointLoad.magnitude := magnitude;
        PointLoad.position := position; PointLoad.direction := Direction.DOWN;
        PointLoad.angle := Some 0%float |}.
Proof.
  intros Hp. unfold PointLoad.init, required, with_default.
  rewrite magnitude_never_rejected.
  unfold float_size_validator, unless, py_geb; simpl. rewrite Hp. reflexivity.
Qed.

Lemma moment_load_accepts (magnitude position : float) :
  (0 <=? position)%float = true ->
  MomentLoad.init None (Some magnitude) (Some position) None =
  Ok {| MomentLoad.type := LoadType.MOMENT; MomentLoad.magnitude := magnitude;
        MomentLoad.position := position; MomentLoad.direction := Direction.CLOCKWISE |}.
Proof.
  intros Hp. unfold MomentLoad.init, required, with_default.
  rewrite magnitude_never_rejected.
  unfold float_size_validator, unless, py_geb; simpl. rewrite Hp. reflexivity.
Qed.

(** ** AnalysisOptions: sample count and safety factor *)

(** C7, as the specification states it, fails on an explicit [None]: the
    safety factor is declared [Optional[float]], so a request may carry
    [null] there and the options are constructed without a safety factor. *)
Lemma analysis_options_null_safety_factor :
  exists options,
    AnalysisOptions.init None None None None None (Some None) = Ok options /\
    AnalysisOptions.safety_factor options = None.
Proof. eexists. split; reflexivity. Qed.

(** C7, amended.  In every AnalysisOptions that is constructed the number of
    points lies in [10,1000] and the safety factor is either [None] (when
    [None] was passed explicitly) or at least 1.0, and it is 1.5 when the
    caller does not supply it; a supplied number of points outside [10,1000]
    and a supplied safety factor below 1.0 are rejected. *)
Theorem analysis_options_bounds
    (include_deflection include_moment include_shear include_stress : option bool) :
  (forall number_of_points safety_factor options,
     AnalysisOptions.init include_deflection include_moment include_shear
       include_stress number_of_points safety_factor = Ok options ->
     (10 <= AnalysisOptions.number_of_points options <= 1000) /\
     match AnalysisOptions.safety_factor options with
     | Some sf => (1 <=? sf)%float = true
     | None => safety_factor = Some None
     end /\
     (safety_factor = None ->
      AnalysisOptions.safety_factor options = Some 1.5%float)) /\
  (forall n safety_factor,
     n < 10 \/ 1000 < n ->
     exists errors,
       AnalysisOptions.init include_deflection include_moment include_shear
         include_stress (Some n) safety_factor = ValidationError errors) /\
  (forall number_of_points sf,
     (sf <? 1)%float = true ->
     exists errors,
       AnalysisOptions.init include_deflection include_moment include_shear
         include_stress number_of_points (Some (Some sf)) = ValidationError errors).
Proof.
  split; [|split].
  - intros number_of_points safety_factor options.
    unfold AnalysisOptions.init, with_default, optional, bind_field, plain,
      int_size_validator, float_size_validator, unless, py_geb; simpl.
    destruct include_deflection, include_moment, include_shear, include_stress;
      (destruct number_of_points as [n|]; simpl;
       [destruct (10 <=? n) eqn:E1; simpl;
        [destruct (n <=? 1000) eqn:E2; simpl|]|];
       destruct safety_factor as [[sf|]|]; simpl;
       try destruct (1 <=? sf)%float eqn:E3; simpl;
       intros H; try discriminate H; injection H as <-; simpl;
       repeat split; try lia; congruence).
  - intros n safety_factor Hn.
    unfold AnalysisOptions.init, with_default, int_size_validator, unless, py_geb,
      plain; simpl.
    destruct include_deflection, include_moment, include_shear, include_stress;
      (destruct (10 <=? n) eqn:E1; simpl;
       [destruct (n <=? 1000) eqn:E2; simpl; [lia|]|];
       (destruct safety_factor as [s|]; [destruct (optional _ _ s)|]; simpl; eauto)).
  - intros number_of_points sf Hsf.
    unfold AnalysisOptions.init, with_default, optional, bind_field,
      float_size_validator, unless, py_geb, plain; simpl.
    rewrite (float_ltb_not_leb _ _ Hsf). simpl.
    destruct include_deflection, include_moment, include_shear, include_stress;
      (destruct number_of_points as [n|]; [destruct (int_size_validator _ n)|];
       simpl; eauto).
Qed.

Lemma analysis_options_bounds_witness :
  (10 <= 250 <= 1000 /\ (1 <=? 2)%float = true) /\
  (exists errors,
     AnalysisOptions.init None None None None (Some 5) None = ValidationError errors) /\
  (exists errors,
     AnalysisOptions.init None None None None None (Some (Some 0.5%float))
     = ValidationError errors).
Proof.
  split; [|split].
  - pose proof (proj1 (analysis_options_bounds None None None None)
                  (Some 250) (Some (Some 2%float)) _ eq_refl) as [Hn [Hsf _]].
    split; [exact Hn|exact Hsf].
  - exact (proj1 (proj2 (analysis_options_bounds None None None None))
             5 None (or_introl eq_refl)).
  - exact (proj2 (proj2 (analysis_options_bounds None None None None))
             None 0.5%float eq_refl).
Defined.

Example analysis_options_defaults :
  AnalysisOptions.init None None None None None None = Ok AnalysisOptions.default.
Proof. reflexivity. Qed.

(** ** CrossSection: required dimensions *)

(** C8.  What the code does with a dimension that is left out: a
    rectangular section without width and height, and a circular section
    without diameter, are both constructed.  The three validators that ask
    for the dimension run only on a supplied value, so they see an explicit
    [None] and never a missing keyword. *)
Theorem cross_section_missing_dimension_constructed :
  CrossSection.init (Some CrossSectionType.RECTANGULAR) None None None None =
    Ok {| CrossSection.type := CrossSectionType.RECTANGULAR;
          CrossSection.width := None; CrossSection.height := None;
          CrossSection.diameter := None; CrossSection.custom_properties := None |} /\
  CrossSection.init (Some CrossSectionType.CIRCULAR) None None None None =
    Ok {| CrossSection.type := CrossSectionType.CIRCULAR;
          CrossSection.width := None; CrossSection.height := None;
          CrossSection.diameter := None; CrossSection.custom_properties := None |}.
Proof. split; reflexivity. Qed.

(** The validators themselves do what C8 says: on a rectangular section
    they reject a width or a height that is [None], on a circular section a
    diameter that is [None], and they return every other value. *)
Lemma dimension_validators_spec (kind : CrossSectionType.t) (v : option float) :
  (CrossSection.validate_width v (Some kind) = inr v <->
     ~ (kind = CrossSectionType.RECTANGULAR /\ v = None)) /\
  (CrossSection.validate_height v (Some kind) = inr v <->
     ~ (kind = CrossSectionType.RECTANGULAR /\ v = None)) /\
  (CrossSection.validate_diameter v (Some kind) = inr v <->
     ~ (kind = CrossSectionType.CIRCULAR /\ v = None)).
Proof.
  unfold CrossSection.validate_width, CrossSection.validate_height,
    CrossSection.validate_diameter, raise.
  destruct kind, v as [x|]; simpl; repeat split; intros; try discriminate;
    try reflexivity; try (intros [? ?]; discriminate);
    match goal with H : ~ _ |- _ => exfalso; apply H; split; reflexivity end.
Qed.

(** An explicit [None] reaches the validators and is rejected. *)
Example cross_section_null_width_rejected :
  CrossSection.init (Some CrossSectionType.RECTANGULAR) (Some None)
    (Some (Some 0.2%float)) None None =
  ValidationError
    [([Key "width"], ValueError "Width is required for rectangular cross section")].
Proof. reflexivity. Qed.

Example cross_section_null_diameter_rejected :
  CrossSection.init (Some CrossSectionType.CIRCULAR) None None (Some None) None =
  ValidationError
    [([Key "diameter"], ValueError "Diameter is required for circular cross section")].
Proof. reflexivity. Qed.

(** With its dimensions supplied and positive the section is constructed. *)
Lemma rectangular_section_accepts (w h : float) :
  (0 <? w)%float = true -> (0 <? h)%float = true ->
  CrossSection.init (Some CrossSectionType.RECTANGULAR) (Some (Some w)) (Some (Some h))
    None None =
  Ok {| CrossSection.type := CrossSectionType.RECTANGULAR;
        CrossSection.width := Some w; CrossSection.height := Some h;
        CrossSection.diameter := None; CrossSection.custom_properties := None |}.
Proof.
  intros Hw Hh.
  unfold CrossSection.init, required, with_default, optional, bind_field,
    float_size_validator, unless, py_gtb; simpl.
  rewrite Hw, Hh. reflexivity.
Qed.

Lemma circular_section_accepts (d : float) :
  (0 <? d)%float = true ->
  CrossSection.init (Some CrossSectionType.CIRCULAR) None None (Some (Some d)) None =
  Ok {| CrossSection.type := CrossSectionType.CIRCULAR;
        CrossSection.width := None; CrossSection.height := None;
        CrossSection.diameter := Some d; CrossSection.custom_properties := None |}.
Proof.
  intros Hd.
  unfold CrossSection.init, required, with_default, optional, bind_field,
    float_size_validator, unless, py_gtb; simpl.
  rewrite Hd. reflexivity.
Qed.

(** ** MCPClient.get_secret *)

Section GetSecret.
Variables (self : MCPClient.t) (w : World) (log : list http_request).

(** Step 1: the environment, under the name as given and then in upper
    case. *)
Lemma get_secret_environment (name v : string) :
  environ w !! name = Some v ->
  MCPClient.get_secret self name w log = (Return (JStr v), log).
Proof. intros H. unfold MCPClient.get_secret. rewrite H. reflexivity. Qed.

Lemma get_secret_environment_upper (name v : string) :
  environ w !! name = None ->
  environ w !! upper name = Some v ->
  MCPClient.get_secret self name w log = (Return (JStr v), log).
Proof. intros H1 H2. unfold MCPClient.get_secret. rewrite H1, H2. reflexivity. Qed.

Lemma truthy_object (members : gmap string json) (key : string) (v : json) :
  members !! key = Some v -> truthy (JObj members) = true.
Proof.
  intros H. simpl. rewrite bool_decide_eq_false_2; [reflexivity|].
  intros Hsize. apply map_size_empty_iff in Hsize. subst members.
  rewrite lookup_empty in H. discriminate.
Qed.

(** Step 2: the local file; an entry of the ["secrets"] object wins over a
    top-level entry of the same name. *)
Lemma lookup_local_secrets (members secrets : gmap string json) (name : string)
    (v : json) :
  members !! "secrets" = Some (JObj secrets) ->
  secrets !! name = Some v ->
  MCPClient.lookup_local (JObj members) name = Return (Some v).
Proof.
  intros Hs Hv. unfold MCPClient.lookup_local.
  rewrite (truthy_object _ _ _ Hs), Hs. simpl.
  rewrite bool_decide_eq_true_2 by (rewrite Hv; eauto).
  rewrite Hv. reflexivity.
Qed.

Lemma lookup_local_top_level (members : gmap string json) (name : string) (v : json) :
  match members !! "secrets" with
  | Some (JObj secrets) => secrets !! name = None
  | Some _ => False
  | None => True
  end ->
  members !! name = Some v ->
  MCPClient.lookup_local (JObj members) name = Return (Some v).
Proof.
  intros Hs Hv. unfold MCPClient.lookup_local.
  rewrite (truthy_object _ _ _ Hv).
  destruct (members !! "secrets") as [[| | | | | |secrets]|]; try contradiction.
  - simpl. rewrite bool_decide_eq_false_2 by (rewrite Hs; intros [? ?]; discriminate).
    rewrite Hv. reflexivity.
  - rewrite Hv. reflexivity.
Qed.

Lemma lookup_local_returns (local : json) (name : string) :
  secrets_well_formed local ->
  exists r, MCPClient.lookup_local local name = Return r.
Proof.
  unfold MCPClient.lookup_local, secrets_well_formed.
  destruct (truthy local); [|eauto].
  destruct local as [| | | | | |members]; eauto.
  destruct (members !! "secrets") as [[| | | | | |secrets]|]; try contradiction;
    intros _; simpl.
  - case_bool_decide as Hin.
    + destruct Hin as [v ->]. eauto.
    + destruct (members !! name); eauto.
  - destruct (members !! name); eauto.
Qed.

Lemma get_secret_local (name : string) (v : json) :
  environ w !! name = None ->
  environ w !! upper name = None ->
  MCPClient.lookup_local (MCPClient._read_local w) name = Return (Some v) ->
  MCPClient.get_secret self name w log = (Return v, log).
Proof.
  intros H1 H2 H3. unfold MCPClient.get_secret. rewrite H1, H2, H3. reflexivity.
Qed.

(** Step 3: without a URL nothing is sent and the answer is [None]. *)
Lemma get_remote_no_url (name : string) :
  truthy_str (MCPClient.url self) = false ->
  MCPClient.get_remote self name w log = (JNull, log).
Proof.
  intros H. unfold MCPClient.get_remote. rewrite H.
  destruct (MCPClient.url self); reflexivity.
Qed.

(** When no request is answered with status 200, whether by a reply with
    another status or by an exception, the answer is [None]. *)
Lemma get_remote_all_fail (name : string) :
  (forall requests body, server w requests <> Response 200 body) ->
  fst (MCPClient.get_remote self name w log) = JNull.
Proof.
  intros Hfail. unfold MCPClient.get_remote.
  destruct (MCPClient.url self) as [u|]; [|reflexivity].
  destruct (truthy_str (Some u)); [|reflexivity].
  unfold MCPClient.try_direct, MCPClient.try_jwt, send.
  destruct (MCPClient.token self) as [tok|]; [|reflexivity].
  destruct (truthy_str (Some tok)); [|reflexivity].
  repeat match goal with
  | |- context [server w ?l] =>
      let E := fresh "E" in
      destruct (server w l) as [|? ?] eqn:E;
      [|match type of E with
        | _ = Response ?status _ =>
            destruct (Z.eqb_spec status 200) as [->|_];
            [exfalso; eapply Hfail; exact E|]
        end];
      simpl
  end;
  reflexivity.
Qed.

Lemma get_secret_no_url (name : string) :
  environ w !! name = None ->
  environ w !! upper name = None ->
  MCPClient.lookup_local (MCPClient._read_local w) name = Return None ->
  truthy_str (MCPClient.url self) = false ->
  MCPClient.get_secret self name w log = (Return JNull, log).
Proof.
  intros H1 H2 H3 H4. unfold MCPClient.get_secret.
  rewrite H1, H2, H3, (get_remote_no_url name H4). reflexivity.
Qed.

Lemma get_secret_remote_all_fail (name : string) :
  environ w !! name = None ->
  environ w !! upper name = None ->
  MCPClient.lookup_local (MCPClient._read_local w) name = Return None ->
  (forall requests body, server w requests <> Response 200 body) ->
  fst (MCPClient.get_secret self name w log) = Return JNull.
Proof.
  intros H1 H2 H3 H4. unfold MCPClient.get_secret. rewrite H1, H2, H3.
  pose proof (get_remote_all_fail name H4) as H.
  destruct (MCPClient.get_remote self name w log) as [v log']. simpl in *.
  rewrite H. reflexivity.
Qed.

(** With a well-formed configuration [get_secret] always returns. *)
Lemma get_secret_returns (name : string) :
  secrets_well_formed (MCPClient._read_local w) ->
  exists v, fst (MCPClient.get_secret self name w log) = Return v.
Proof.
  intros Hwf. unfold MCPClient.get_secret.
  destruct (environ w !! name); [eauto|].
  destruct (environ w !! upper name); [eauto|].
  destruct (lookup_local_returns _ name Hwf) as [[v|] ->]; [eauto|].
  destruct (MCPClient.get_remote self name w log). eauto.
Qed.
End GetSecret.

(** C10.  What the code does when the local file has a ["secrets"] entry
    that is not an object, here [{"secrets": null}]: with no environment
    variable and no URL configured, [get_secret] raises a [TypeError]
    instead of returning [None]. *)
Theorem get_secret_raises_on_null_secrets :
  let w := offline (JObj {[ "secrets" := JNull ]}) in
  MCPClient.url (MCPClient.init w None None None) = None /\
  MCPClient.get_secret (MCPClient.init w None None None) "mySecretKey" w [] =
    (Raise (TypeError "argument is not iterable"), []).
Proof. split; vm_compute; reflexivity. Qed.

(** The same file with an object under ["secrets"]: the nested entry is
    returned, before the top-level entry of the same name. *)
Example get_secret_prefers_secrets :
  let config := JObj {[ "secrets" := JObj {[ "mySecretKey" := JStr "nested" ]};
                        "mySecretKey" := JStr "top" ]} in
  let w := offline config in
  MCPClient.get_secret (MCPClient.init w None None None) "mySecretKey" w [] =
    (Return (JStr "nested"), []).
Proof. vm_compute. reflexivity. Qed.

Example get_secret_offline_none :
  let w := offline (JObj {[ "other" := JStr "x" ]}) in
  MCPClient.get_secret (MCPClient.init w None None None) "mySecretKey" w [] =
    (Return JNull, []).
Proof. vm_compute. reflexivity. Qed.

(** The two remote attempts, in order: the client token is refused, then
    exchanged, and the short-lived token fetches the secret. *)
Example get_secret_token_exchange :
  let client := MCPClient.init vault None None None in
  MCPClient.get_secret client "mySecretKey" vault [] =
    (Return (JStr "s3cret"),
     [ {| method := GET; target := "http://mcp.local/secrets/mySecretKey";
          bearer := Some (JStr "jwt") |};
       {| method := POST; target := "http://mcp.local/token";
          bearer := Some (JStr "client") |};
       {| method := GET; target := "http://mcp.local/secrets/mySecretKey";
          bearer := Some (JStr "client") |} ]).
Proof. vm_compute. reflexivity. Qed.

Example get_secret_from_environment :
  MCPClient.get_secret (MCPClient.init vault None None None)
    "central_mcp_client_token" vault [] = (Return (JStr "client"), []).
Proof. vm_compute. reflexivity. Qed.

(** ** The load union *)

Example parse_moment_load :
  Load.parse {| Load.type := Some LoadType.MOMENT; Load.magnitude := Some 50%float;
                Load.position := Some 1%float; Load.direction := None;
                Load.angle := None; Load.start_magnitude := None;
                Load.end_magnitude := None; Load.start_position := None;
                Load.end_position := None |} =
  Ok (Load.Moment {| MomentLoad.type := LoadType.MOMENT;
                     MomentLoad.magnitude := 50%float;
                     MomentLoad.position := 1%float;
                     MomentLoad.direction := Direction.CLOCKWISE |}).
Proof. reflexivity. Qed.

Example parse_distributed_load :
  Load.parse {| Load.type := Some LoadType.DISTRIBUTED; Load.magnitude := None;
                Load.position := None; Load.direction := Some Direction.DOWN;
                Load.angle := None; Load.start_magnitude := Some 100%float;
                Load.end_magnitude := Some 200%float;
                Load.start_position := Some 1%float;
                Load.end_position := Some 3%float |} =
  Ok (Load.Distributed {| DistributedLoad.type := LoadType.DISTRIBUTED;
                          DistributedLoad.start_magnitude := 100%float;
                          DistributedLoad.end_magnitude := 200%float;
                          DistributedLoad.start_position := 1%float;
                          DistributedLoad.end_position := 3%float;
                          DistributedLoad.direction := Direction.DOWN |}).
Proof. reflexivity. Qed.

(** * Further properties of the models *)

(** ** More on float comparison *)

Lemma SFcompare_some_numbers (x y : spec_float) (c : comparison) :
  SFcompare x y = Some c -> SFeqb x x = true /\ SFeqb y y = true.
Proof.
  unfold SFeqb.
  destruct x as [sx|sx| |sx mx ex], y as [sy|sy| |sy my ey]; simpl;
    intros H; try discriminate; split;
    try reflexivity;
    try (destruct sx; reflexivity); try (destruct sy; reflexivity);
    try (destruct sx; rewrite Z.compare_refl;
         change (PosDef.Pos.compare_cont Eq mx mx) with (Pos.compare mx mx);
         rewrite Pos.compare_refl; reflexivity);
    try (destruct sy; rewrite Z.compare_refl;
         change (PosDef.Pos.compare_cont Eq my my) with (Pos.compare my my);
         rewrite Pos.compare_refl; reflexivity).
Qed.

Lemma float_leb_numbers (x y : float) :
  (x <=? y)%float = true -> is_number x = true /\ is_number y = true.
Proof.
  unfold is_number. rewrite leb_spec, !FloatAxioms.eqb_spec. unfold SFleb.
  destruct (SFcompare (Prim2SF x) (Prim2SF y)) as [c|] eqn:E; [|discriminate].
  intros _. exact (SFcompare_some_numbers _ _ _ E).
Qed.

Lemma float_ltb_numbers (x y : float) :
  (x <? y)%float = true -> is_number x = true /\ is_number y = true.
Proof.
  unfold is_number. rewrite ltb_spec, !FloatAxioms.eqb_spec. unfold SFltb.
  destruct (SFcompare (Prim2SF x) (Prim2SF y)) as [c|] eqn:E; [|discriminate].
  intros _. exact (SFcompare_some_numbers _ _ _ E).
Qed.

Lemma float_not_leb_ltb (x y : float) :
  is_number x = true -> is_number y = true ->
  (x <=? y)%float = false -> (y <? x)%float = true.
Proof.
  unfold is_number. rewrite !FloatAxioms.eqb_spec, ltb_spec, leb_spec. intros Hx Hy.
  destruct (SFcompare_numbers _ _ Hx Hy) as [c Hc].
  unfold SFltb, SFleb. rewrite (SFcompare_antisym (Prim2SF x) (Prim2SF y)), Hc.
  destruct c; simpl; congruence.
Qed.

Lemma float_ltb_leb (x y : float) :
  (x <? y)%float = true -> (x <=? y)%float = true.
Proof.
  rewrite ltb_spec, leb_spec. unfold SFltb, SFleb.
  destruct (SFcompare (Prim2SF x) (Prim2SF y)) as [[| |]|]; congruence.
Qed.

(** ** What a constructed load satisfies *)

Lemma float_size_ge_zero_ok (v v' : float) :
  float_size_validator ge_zero v = inr v' -> v' = v /\ fle 0 v.
Proof. apply float_size_ge_ok. Qed.



Lemma distributed_load_init_ok
    (type : option LoadType.t)
    (start_magnitude end_magnitude start_position end_position : option float)
    (direction : option Direction.t) (l : DistributedLoad.t) :
  DistributedLoad.init type start_magnitude end_magnitude start_position
    end_position direction = Ok l ->
  load_well_formed (Load.Distributed l) /\
  (forall t, type = Some t -> t = LoadType.DISTRIBUTED).
Proof.
  unfold DistributedLoad.init, required, with_default, bind_field, values_get, plain,
    DistributedLoad.validate_positions, literal, float_size_validator, unless,
    py_geb, fle, flt; simpl.
  destruct type as [[]|], start_magnitude as [sm|], end_magnitude as [em|],
    start_position as [s|], end_position as [e|], direction as [d|];
    simpl; try discriminate;
    (destruct (0 <=? s)%float eqn:Es; simpl; try discriminate;
     destruct (0 <=? e)%float eqn:Ee; simpl; try discriminate;
     destruct (e <=? s)%float eqn:Ees; simpl; try discriminate;
     intros H; injection H as <-; simpl;
     repeat split; try assumption; try congruence;
     (apply float_not_leb_ltb;
       [exact (proj2 (float_leb_numbers _ _ Ee))
       |exact (proj2 (float_leb_numbers _ _ Es))
       |exact Ees])).
Qed.

(** X1.  Every distributed load that is constructed starts at or after 0
    and ends strictly after it starts (a NaN position is rejected as
    well). *)
Theorem distributed_load_ordered
    (type : option LoadType.t)
    (start_magnitude end_magnitude start_position end_position : option float)
    (direction : option Direction.t) (l : DistributedLoad.t) :
  DistributedLoad.init type start_magnitude end_magnitude start_position
    end_position direction = Ok l ->
  fle 0 (DistributedLoad.start_position l) /\
  flt (DistributedLoad.start_position l) (DistributedLoad.end_position l).
Proof.
  intros H. apply distributed_load_init_ok in H as [[_ H] _]. exact H.
Qed.

Lemma distributed_load_ordered_witness :
  fle 0 1 /\ flt 1 3.
Proof.
  exact (distributed_load_ordered None (Some 100%float) (Some 200%float)
           (Some 1%float) (Some 3%float) None _ eq_refl).
Defined.



(** ** Lists of models *)

Lemma list_items_inv {A} (items : list (result A)) (i : nat) (l : list A) :
  list_items i items = inr l -> items = Ok <$> l.
Proof.
  revert i l. induction items as [|r items IH]; intros i l; simpl.
  - intros [= <-]. reflexivity.
  - destruct r as [a|es]; [|discriminate].
    destruct (list_items (S i) items) as [es|l'] eqn:E; [discriminate|].
    intros [= <-]. rewrite (IH _ _ E). reflexivity.
Qed.

(** X3.  LoadConditions is constructed exactly when the list of loads is
    not empty and every item of it is a valid load; it then holds those
    loads, in the order given. *)
Theorem load_conditions_constructed_iff
    (items : list (result Load.t)) (lc : LoadConditions.t) :
  LoadConditions.init (Some items) = Ok lc <->
  items <> [] /\ items = Ok <$> LoadConditions.loads lc.
Proof.
  unfold LoadConditions.init, required, bind_field, list_length_validator.
  split.
  - destruct items as [|r items]; [simpl; discriminate|].
    change (List.length (r :: items) <? 1)%nat with false. cbv iota.
    destruct (list_items 0 (r :: items)) as [es|l] eqn:E; simpl; [discriminate|].
    intros [= <-]. simpl. split; [discriminate|]. exact (list_items_inv _ _ _ E).
  - intros [Hne ->]. destruct lc as [loads]. simpl in *.
    destruct loads as [|l loads]; [exfalso; apply Hne; reflexivity|].
    change (List.length (Ok <$> l :: loads) <? 1)%nat with false. cbv iota.
    rewrite list_items_all_ok. reflexivity.
Qed.

(** ** Supports *)

Lemma support_init_ok (position : option float) (type : option SupportType.t)
    (reactions : option (result SupportReactions.t)) (s : Support.t) :
  Support.init position type reactions = Ok s -> support_well_formed s.
Proof.
  unfold Support.init, support_well_formed.
  destruct position as [p|], type as [kind|], reactions as [[v|es]|]; simpl;
    try discriminate;
    try (destruct (float_size_validator ge_zero _); discriminate).
  destruct (float_size_validator ge_zero p) as [es|p'] eqn:Ep; simpl.
  - rewrite validate_reactions_overwrites. discriminate.
  - rewrite validate_reactions_overwrites. intros [= <-]. simpl.
    apply float_size_ge_zero_ok in Ep as [-> Hp]. auto.
Qed.

Lemma built_supports_well_formed (raws : list raw_support) (l : list Support.t) :
  build_support <$> raws = Ok <$> l -> Forall support_well_formed l.
Proof.
  revert l. induction raws as [|raw raws IH]; intros [|s l]; simpl;
    try discriminate; [constructor|].
  intros [= Hs Hl]. constructor; [|exact (IH _ Hl)].
  exact (support_init_ok _ _ _ _ Hs).
Qed.

(** X4.  Whatever supports a request carries, the SupportConditions built
    from them has one support per item, at least one; two for a
    simply-supported or fixed-fixed beam, exactly one and of kind fixed for a
    cantilever; and every support has a position of at least 0 and the
    reaction flags of its kind. *)
Theorem support_conditions_invariant
    (type : option BeamType.t) (raws : list raw_support) (sc : SupportConditions.t) :
  SupportConditions.init type (Some (build_support <$> raws)) = Ok sc ->
  type = Some (SupportConditions.type sc) /\
  List.length (SupportConditions.supports sc) = List.length raws /\
  SupportConditions.supports sc <> [] /\
  support_rules_violated (SupportConditions.type sc) (SupportConditions.supports sc)
    = false /\
  Forall support_well_formed (SupportConditions.supports sc).
Proof.
  unfold SupportConditions.init, required, bind_field, list_length_validator,
    values_get, plain.
  destruct type as [bt|].
  2:{ destruct (List.length _ <? 1)%nat; [discriminate|].
      destruct (list_items 0 _) as [es|l]; simpl; [discriminate|].
      destruct (SupportConditions.validate_supports l None); discriminate. }
  destruct (List.length (build_support <$> raws) <? 1)%nat eqn:Elen; [discriminate|].
  destruct (list_items 0 (build_support <$> raws)) as [es|l] eqn:E; simpl;
    [discriminate|].
  pose proof (list_items_inv _ _ _ E) as Hl.
  destruct (validate_supports_spec bt l) as [Hok Hbad].
  destruct (support_rules_violated bt l) eqn:V.
  - destruct (Hbad eq_refl) as [msg ->]. discriminate.
  - rewrite (Hok eq_refl). intros [= <-]. simpl.
    assert (List.length l = List.length raws) as Hlen.
    { rewrite <- (length_fmap build_support raws), Hl, length_fmap. reflexivity. }
    repeat split; try assumption.
    + intros ->. rewrite length_fmap in Elen. simpl in Hlen. rewrite <- Hlen in Elen.
      discriminate.
    + exact (built_supports_well_formed _ _ Hl).
Qed.

Lemma support_conditions_invariant_witness :
  Some BeamType.SIMPLY_SUPPORTED = Some (SupportConditions.type Sample.supports) /\
  List.length (SupportConditions.supports Sample.supports) = 2%nat /\
  SupportConditions.supports Sample.supports <> [] /\
  support_rules_violated (SupportConditions.type Sample.supports)
    (SupportConditions.supports Sample.supports) = false /\
  Forall support_well_formed (SupportConditions.supports Sample.supports).
Proof.
  exact (support_conditions_invariant (Some BeamType.SIMPLY_SUPPORTED)
           [ (Some 0%float, Some SupportType.PIN,
              Some (SupportReactions.init None None (Some true)));
             (Some 4%float, Some SupportType.ROLLER,
              Some (SupportReactions.init None None None)) ]
           Sample.supports eq_refl).
Defined.

(** ** Beam and material *)

Lemma float_size_gt_zero_ok (v v' : float) :
  float_size_validator gt_zero v = inr v' -> v' = v /\ flt 0 v.
Proof.
  unfold float_size_validator, unless, py_gtb, flt; simpl.
  destruct (0 <? v)%float; simpl; [|discriminate].
  intros [= <-]. auto.
Qed.

(** X5.  A beam that is constructed, with a material constructed from its
    three values, has a length, an elastic modulus and a moment of inertia
    greater than 0, and a material whose density and yield strength are
    greater than 0 (so none of them is a NaN). *)
Theorem beam_properties_positive
    (id name : option string) (length elastic_modulus moment_of_inertia : option float)
    (cross_section : option (result CrossSection.t))
    (material_name : option string) (density yield_strength : option float)
    (b : BeamProperties.t) :
  BeamProperties.init id name length elastic_modulus moment_of_inertia cross_section
    (Some (Material.init material_name density yield_strength)) = Ok b ->
  flt 0 (BeamProperties.length b) /\
  flt 0 (BeamProperties.elastic_modulus b) /\
  flt 0 (BeamProperties.moment_of_inertia b) /\
  flt 0 (Material.density (BeamProperties.material b)) /\
  flt 0 (Material.yield_strength (BeamProperties.material b)).
Proof.
  unfold BeamProperties.init. cbv zeta.
  destruct (required id plain) as [?|i] eqn:E1; [discriminate|].
  destruct (required name plain) as [?|n] eqn:E2; [discriminate|].
  destruct (required length _) as [?|l] eqn:E3; [discriminate|].
  destruct (required elastic_modulus _) as [?|e] eqn:E4; [discriminate|].
  destruct (required moment_of_inertia _) as [?|mi] eqn:E5; [discriminate|].
  destruct (required cross_section nested) as [?|cs] eqn:E6; [discriminate|].
  destruct (required (Some (Material.init _ _ _)) nested) as [?|m] eqn:E7;
    [discriminate|].
  intros [= <-]. simpl.
  destruct length as [l0|]; [|discriminate].
  destruct elastic_modulus as [e0|]; [|discriminate].
  destruct moment_of_inertia as [mi0|]; [|discriminate].
  simpl in E3, E4, E5.
  apply float_size_gt_zero_ok in E3 as [-> H3].
  apply float_size_gt_zero_ok in E4 as [-> H4].
  apply float_size_gt_zero_ok in E5 as [-> H5].
  repeat split; try assumption;
    unfold required, nested, Material.init in E7; cbv zeta in E7;
    destruct (required material_name plain) as [?|mn]; try discriminate;
    destruct density as [d|]; try discriminate;
    destruct yield_strength as [y|];
    simpl in E7;
    try (destruct (float_size_validator gt_zero d); discriminate);
    destruct (float_size_validator gt_zero d) as [?|d'] eqn:Ed; try discriminate;
    destruct (float_size_validator gt_zero y) as [?|y'] eqn:Ey; try discriminate;
    injection E7 as <-; simpl;
    apply float_size_gt_zero_ok in Ed as [-> Hd];
    apply float_size_gt_zero_ok in Ey as [-> Hy]; assumption.
Qed.

Lemma beam_properties_positive_witness :
  flt 0 4 /\ flt 0 200e9 /\ flt 0 1e-5 /\ flt 0 7850 /\ flt 0 250e6.
Proof.
  exact (beam_properties_positive (Some "B1") (Some "span") (Some 4%float)
           (Some 200e9%float) (Some 1e-5%float) (Some (Ok Sample.section))
           (Some "Steel (A36)") (Some 7850%float) (Some 250e6%float) _ eq_refl).
Defined.

(** ** Cross section *)

(** X6.  In a cross section that is constructed every dimension is either
    absent or greater than 0, and a rectangular section is never constructed
    from an explicit [None] width or height, nor a circular one from an
    explicit [None] diameter. *)
Theorem cross_section_dimensions
    (type : option CrossSectionType.t) (width height diameter : option (option float))
    (custom_properties : option (option (gmap string json))) (cs : CrossSection.t) :
  CrossSection.init type width height diameter custom_properties = Ok cs ->
  let dimension_ok (d : option float) :=
    match d with Some x => flt 0 x | None => True end in
  (dimension_ok (CrossSection.width cs) /\
   dimension_ok (CrossSection.height cs) /\
   dimension_ok (CrossSection.diameter cs)) /\
  (CrossSection.type cs = CrossSectionType.RECTANGULAR ->
     width <> Some None /\ height <> Some None) /\
  (CrossSection.type cs = CrossSectionType.CIRCULAR -> diameter <> Some None).
Proof.
  unfold CrossSection.init. cbv zeta.
  destruct type as [ty|]; [|simpl; discriminate].
  change (required (Some ty) plain) with (inr ty : field CrossSectionType.t).
  change (values_get (inr ty : field CrossSectionType.t)) with (Some ty).
  cbv iota beta.
  destruct (with_default width _ _) as [?|w] eqn:Ew; [discriminate|].
  destruct (with_default height _ _) as [?|h] eqn:Eh; [discriminate|].
  destruct (with_default diameter _ _) as [?|d] eqn:Ed; [discriminate|].
  destruct (with_default custom_properties _ _) as [?|c]; [discriminate|].
  intros [= <-]. simpl.
  assert (forall (input : option (option float)) post v,
            with_default input None
              (optional (float_size_validator CrossSection.dimension) post) = inr v ->
            (forall x, post x = inr x \/ exists e, post x = inl e) ->
            match v with Some x => flt 0 x | None => True end /\
            (input = Some None -> post None = inr None)) as Hdim.
  { intros input post v H Hpost.
    destruct input as [[x|]|]; simpl in H.
    - unfold bind_field, float_size_validator, unless, py_gtb in H. simpl in H.
      destruct (0 <? x)%float eqn:Ex; simpl in H; [|discriminate].
      destruct (Hpost (Some x)) as [Hp|[e Hp]]; rewrite Hp in H; [|discriminate].
      injection H as <-. split; [exact Ex|discriminate].
    - destruct (Hpost None) as [Hp|[e Hp]]; rewrite Hp in H; [|discriminate].
      injection H as <-. split; [exact I|]. intros _. exact Hp.
    - injection H as <-. split; [exact I|discriminate]. }
  assert (forall (f : option float -> option CrossSectionType.t -> field (option float)) k,
            (f = CrossSection.validate_width \/ f = CrossSection.validate_height
             \/ f = CrossSection.validate_diameter) ->
            forall x, f x k = inr x \/ exists e, f x k = inl e) as Hpost.
  { intros f k [-> | [-> | ->]] x;
      unfold CrossSection.validate_width, CrossSection.validate_height,
        CrossSection.validate_diameter;
      match goal with |- context [if ?b then _ else _] => destruct b end; eauto. }
  destruct (Hdim _ _ _ Ew (Hpost _ _ (or_introl eq_refl))) as [Hw Hw'].
  destruct (Hdim _ _ _ Eh (Hpost _ _ (or_intror (or_introl eq_refl)))) as [Hh Hh'].
  destruct (Hdim _ _ _ Ed (Hpost _ _ (or_intror (or_intror eq_refl)))) as [Hd Hd'].
  split; [auto|]. split.
  - intros ->. split; intros E.
    + specialize (Hw' E). discriminate.
    + specialize (Hh' E). discriminate.
  - intros -> E. specialize (Hd' E). discriminate.
Qed.

Lemma cross_section_dimensions_witness :
  (flt 0 0.1 /\ flt 0 0.2 /\ True) /\
  (CrossSectionType.RECTANGULAR = CrossSectionType.RECTANGULAR ->
     Some (Some 0.1%float) <> Some None /\ Some (Some 0.2%float) <> Some None) /\
  (CrossSectionType.RECTANGULAR = CrossSectionType.CIRCULAR ->
     (None : option (option float)) <> Some None).
Proof.
  exact (cross_section_dimensions (Some CrossSectionType.RECTANGULAR)
           (Some (Some 0.1%float)) (Some (Some 0.2%float)) None None _ eq_refl).
Defined.

(** ** The request as a whole *)

Lemma existsb_false_Forall {A} (f : A -> bool) (l : list A) :
  existsb f l = false -> Forall (fun x => f x = false) l.
Proof.
  induction l as [|x l IH]; simpl; intros H; constructor;
    apply orb_false_iff in H as [Hx Hl]; auto.
Qed.

Lemma load_not_exceeding_within (beam_length : float) (load : Load.t) :
  is_number beam_length = true ->
  load_well_formed load ->
  load_exceeds beam_length load = false ->
  load_within beam_length load.
Proof.
  intros HL Hw He. unfold load_exceeds, py_gtb in He.
  destruct load as [l|l|l]; simpl in *.
  - rewrite orb_false_r in He. destruct Hw as [_ [Hp _]].
    apply float_not_ltb_leb; [exact HL|exact (proj2 (float_leb_numbers _ _ Hp))|exact He].
  - destruct Hw as [_ [_ Hlt]].
    apply float_not_ltb_leb; [exact HL|exact (proj2 (float_ltb_numbers _ _ Hlt))|exact He].
  - rewrite orb_false_r in He. destruct Hw as [_ Hp].
    apply float_not_ltb_leb; [exact HL|exact (proj2 (float_leb_numbers _ _ Hp))|exact He].
Qed.

(** X7.  In a request that is constructed from a beam of positive length,
    supports and loads that satisfy the constraints of their own classes,
    every support lies between 0 and the beam length, every point and moment
    load lies at or before the beam length, and every distributed load ends
    at or before it. *)
Theorem request_positions_on_beam
    (now : Z) (id : option string) (timestamp : option Z)
    (beam : option (result BeamProperties.t))
    (supports : option (result SupportConditions.t))
    (loads : option (result LoadConditions.t))
    (analysis_options : option (result AnalysisOptions.t)) (r : AnalysisRequest.t) :
  AnalysisRequest.init now id timestamp beam supports loads analysis_options = Ok r ->
  let beam_length := BeamProperties.length (AnalysisRequest.beam r) in
  flt 0 beam_length ->
  Forall support_well_formed (SupportConditions.supports (AnalysisRequest.supports r)) ->
  Forall load_well_formed (LoadConditions.loads (AnalysisRequest.loads r)) ->
  Forall (fun s => fle 0 (Support.position s) /\ fle (Support.position s) beam_length)
         (SupportConditions.supports (AnalysisRequest.supports r)) /\
  Forall (load_within beam_length) (LoadConditions.loads (AnalysisRequest.loads r)).
Proof.
  intros H beam_length HL Hs Hl.
  apply analysis_request_positions_invariant in H.
  unfold any_position_exceeds in H. apply orb_false_iff in H as [Hloads Hsupports].
  fold beam_length in Hloads, Hsupports.
  pose proof (proj2 (float_ltb_numbers _ _ HL)) as HLn.
  apply existsb_false_Forall in Hloads. apply existsb_false_Forall in Hsupports.
  split.
  - rewrite Forall_forall in *. intros s Hin.
    destruct (Hs s Hin) as [Hp _]. split; [exact Hp|].
    specialize (Hsupports s Hin). unfold support_exceeds, py_gtb in Hsupports.
    simpl in Hsupports.
    apply float_not_ltb_leb;
      [exact HLn|exact (proj2 (float_leb_numbers _ _ Hp))|exact Hsupports].
  - rewrite Forall_forall in *. intros l Hin.
    apply load_not_exceeding_within; auto.
Qed.

Lemma request_positions_on_beam_witness :
  Forall (fun s => fle 0 (Support.position s) /\ fle (Support.position s) 4)
         (SupportConditions.supports Sample.supports) /\
  Forall (load_within 4) (LoadConditions.loads Sample.central).
Proof.
  refine (request_positions_on_beam 0 (Some "R1") None (Some (Ok Sample.beam))
            (Some (Ok Sample.supports)) (Some (Ok Sample.central)) None
            _ eq_refl eq_refl _ _).
  - repeat constructor.
  - repeat constructor.
Defined.

(** * The configuration client: [_fetch_remote], [get_all], [get] *)

Section GetAll.
Variables (w : World) (clock : nat -> Z).

(** When the cached data is falsy the cache is not consulted and the clock
    is not read. *)
Lemma cache_hit_falsy (self : MCPClient.t) (run : Run) :
  truthy (fst (MCPClient._cache self)) = false ->
  Config.cache_hit self clock run = (false, run).
Proof. intros H. unfold Config.cache_hit. rewrite H. reflexivity. Qed.

Lemma cache_hit_sent (self : MCPClient.t) (run : Run) :
  sent (snd (Config.cache_hit self clock run)) = sent run.
Proof.
  unfold Config.cache_hit. destruct (truthy _); reflexivity.
Qed.

(** What a call of [get_all] that returns leaves behind: the value is in the
    cache, and nothing else of the client has changed. *)
Lemma get_all_returns_cached (self self1 : MCPClient.t) (run run1 : Run) (v : json) :
  Config.get_all self w clock run = (inr v, self1, run1) ->
  fst (MCPClient._cache self1) = v /\
  MCPClient.url self1 = MCPClient.url self /\
  MCPClient.token self1 = MCPClient.token self /\
  MCPClient.cache_ttl self1 = MCPClient.cache_ttl self.
Proof.
  unfold Config.get_all.
  destruct (Config.cache_hit self clock run) as [[|] run0].
  - intros [= <- <- <-]. auto.
  - destruct (truthy (JObj (Config.central_env w))).
    + unfold Config.store, Config._now. intros [= <- <- <-]. simpl. auto.
    + destruct (truthy (MCPClient._read_local w)).
      * unfold Config.store, Config._now. intros [= <- <- <-]. simpl. auto.
      * destruct (Config._fetch_remote self w run0) as [[e|remote] run2];
          [discriminate|].
        unfold Config.store, Config._now. intros [= <- <- <-]. simpl. auto.
Qed.

(** X8.  After [get_all] has returned a truthy value, a second [get_all]
    made while less than [cache_ttl] seconds have passed since the value was
    stored returns the same value, whatever the environment, the files and
    the server have become in the meantime, and sends no request. *)
Theorem get_all_served_from_cache
    (self self1 : MCPClient.t) (run run1 : Run) (v : json)
    (w' : World) :
  Config.get_all self w clock run = (inr v, self1, run1) ->
  truthy v = true ->
  clock (reads run1) - snd (MCPClient._cache self1) < MCPClient.cache_ttl self ->
  Config.get_all self1 w' clock run1 =
    (inr v, self1, {| sent := sent run1; reads := S (reads run1) |}).
Proof.
  intros H Hv Hfresh.
  destruct (get_all_returns_cached _ _ _ _ _ H) as [Hc [_ [_ Httl]]].
  unfold Config.get_all, Config.cache_hit, Config._now.
  rewrite Hc, Hv, Httl.
  rewrite (proj2 (Z.ltb_lt _ _) Hfresh). reflexivity.
Qed.
End GetAll.

Lemma get_all_served_from_cache_witness :
  let v := JObj (Config.central_env vault) in
  let self := MCPClient.init vault None None None in
  let self1 := {| MCPClient.url := Some "http://mcp.local/";
                  MCPClient.token := Some "client";
                  MCPClient.cache_ttl := 30;
                  MCPClient._cache := (v, 1000) |} in
  let run1 := {| sent := []; reads := 1 |} in
  Config.get_all self vault ticking fresh_run = (inr v, self1, run1) /\
  Config.get_all self1 (offline JNull) ticking run1 =
    (inr v, self1, {| sent := []; reads := 2 |}).
Proof.
  cbv zeta.
  assert (Config.get_all (MCPClient.init vault None None None) vault ticking fresh_run =
          (inr (JObj (Config.central_env vault)),
           {| MCPClient.url := Some "http://mcp.local/";
              MCPClient.token := Some "client";
              MCPClient.cache_ttl := 30;
              MCPClient._cache := (JObj (Config.central_env vault), 1000) |},
           {| sent := []; reads := 1 |})) as H by (vm_compute; reflexivity).
  split; [exact H|].
  refine (get_all_served_from_cache vault ticking _ _ _ _ _ (offline JNull) H _ _).
  - vm_compute. reflexivity.
  - simpl. vm_compute. reflexivity.
Defined.

Section GetAllSources.
Variables (w : World) (clock : nat -> Z).

(** [_fetch_remote] with a URL sends exactly its one request. *)
Lemma fetch_remote_sent (self : MCPClient.t) (run : Run) (u : string) :
  MCPClient.url self = Some u -> u <> "" ->
  sent (snd (Config._fetch_remote self w run)) =
    Config.context_request self u :: sent run.
Proof.
  intros Hu Hne. unfold Config._fetch_remote, send. rewrite Hu. simpl.
  rewrite bool_decide_eq_false_2 by exact Hne. simpl.
  destruct (server w _) as [|st [data|]]; [reflexivity| |];
    destruct (Config.raise_for_status st); reflexivity.
Qed.

(** X9.  [_fetch_remote] without a URL raises [RuntimeError] and sends
    nothing.  With a URL it sends one GET to the URL, stripped of trailing
    slashes, followed by [/context], and returns the JSON body of the reply
    exactly when the status is outside 400..599 and the body parses: every
    other status, not only 200, is taken as a configuration. *)
Theorem fetch_remote_spec (self : MCPClient.t) (run : Run) :
  (truthy_str (MCPClient.url self) = false ->
     Config._fetch_remote self w run =
       (inl (RuntimeError "MCP URL not configured"), run)) /\
  (forall u, MCPClient.url self = Some u -> u <> "" ->
     let request := Config.context_request self u in
     snd (Config._fetch_remote self w run) =
       {| sent := request :: sent run; reads := reads run |} /\
     forall data,
       fst (Config._fetch_remote self w run) = inr data <->
       exists status,
         server w (request :: sent run) = Response status (Some data) /\
         (status < 400 \/ 600 <= status)).
Proof.
  split.
  - intros H. unfold Config._fetch_remote. rewrite H.
    destruct (MCPClient.url self); reflexivity.
  - intros u Hu Hne request. unfold Config._fetch_remote, send. rewrite Hu. simpl.
    rewrite bool_decide_eq_false_2 by exact Hne. simpl. fold request.
    destruct (server w (request :: sent run)) as [|st body] eqn:E.
    + split; [reflexivity|]. intros data. split; [discriminate|].
      intros [status [N _]]. discriminate.
    + unfold Config.raise_for_status.
      destruct (Z.leb_spec 400 st) as [E1|E1], (Z.ltb_spec st 600) as [E2|E2],
        body as [d|]; simpl;
        (split; [reflexivity|]); intros data;
        (split;
         [intros H;
          first [discriminate H
                |injection H as <-; exists st; split; [reflexivity|lia]]
         |intros [status [N Hs]];
          first [discriminate N
                |injection N as <- <-; first [lia|reflexivity]]]).
Qed.

(** X10.  A call of [get_all] that raises leaves the client as it was: the
    cache is written only after a source has answered.  It raises only in
    the remote step, that is when no [CENTRAL_] variable is set and no local
    file holds a truthy value. *)
Theorem get_all_failure_keeps_cache
    (self self1 : MCPClient.t) (run run1 : Run) (e : raised) :
  Config.get_all self w clock run = (inl e, self1, run1) ->
  self1 = self /\
  Config.central_env w = ∅ /\
  truthy (MCPClient._read_local w) = false.
Proof.
  unfold Config.get_all.
  destruct (Config.cache_hit self clock run) as [[|] run0]; [discriminate|].
  destruct (truthy (JObj (Config.central_env w))) eqn:Eenv.
  { unfold Config.store, Config._now. discriminate. }
  destruct (truthy (MCPClient._read_local w)) eqn:Elocal.
  { unfold Config.store, Config._now. discriminate. }
  destruct (Config._fetch_remote self w run0) as [[e'|remote] run2].
  - intros [= <- <- <-]. repeat split.
    simpl in Eenv. apply negb_false_iff, bool_decide_eq_true_1 in Eenv.
    apply map_size_empty_iff. exact Eenv.
  - unfold Config.store, Config._now. discriminate.
Qed.
End GetAllSources.

Lemma get_all_failure_keeps_cache_witness :
  let self := MCPClient.init (offline JNull) None None None in
  self = self /\
  Config.central_env (offline JNull) = ∅ /\
  truthy (MCPClient._read_local (offline JNull)) = false.
Proof.
  exact (get_all_failure_keeps_cache (offline JNull) ticking
           (MCPClient.init (offline JNull) None None None) _ fresh_run fresh_run
           (RuntimeError "MCP URL not configured") eq_refl).
Defined.

Section GetAllEnvironment.
Variables (w : World) (clock : nat -> Z).

Lemma central_env_lookup (key : string) (v : json) :
  Config.central_env w !! key = Some v <->
  exists s, v = JStr s /\ environ w !! key = Some s /\
            String.prefix "CENTRAL_" key = true.
Proof.
  unfold Config.central_env. rewrite lookup_fmap, fmap_Some. split.
  - intros [s [Hs ->]]. apply map_lookup_filter_Some in Hs as [Hs Hp].
    exists s. auto.
  - intros [s [-> [Hs Hp]]]. exists s. split; [|reflexivity].
    apply map_lookup_filter_Some. auto.
Qed.

(** X11.  When the answer does not come from the cache and at least one
    environment variable has a name starting with [CENTRAL_], [get_all]
    returns exactly those variables, each under its own name with its value
    as a string, whatever the local file and the server hold; it sends no
    request and stores that answer in the cache. *)
Theorem get_all_environment_first
    (self : MCPClient.t) (run : Run) (name value : string) :
  fst (Config.cache_hit self clock run) = false ->
  environ w !! name = Some value ->
  String.prefix "CENTRAL_" name = true ->
  exists (env_obj : gmap string json) self1 run1,
    Config.get_all self w clock run = (inr (JObj env_obj), self1, run1) /\
    (forall key v,
       env_obj !! key = Some v <->
       exists s, v = JStr s /\ environ w !! key = Some s /\
                 String.prefix "CENTRAL_" key = true) /\
    sent run1 = sent run /\
    fst (MCPClient._cache self1) = JObj env_obj.
Proof.
  intros Hmiss Hname Hprefix.
  assert (truthy (JObj (Config.central_env w)) = true) as Henv.
  { apply (truthy_object _ name (JStr value)). apply central_env_lookup. eauto. }
  unfold Config.get_all.
  pose proof (cache_hit_sent clock self run) as Hsent.
  destruct (Config.cache_hit self clock run) as [hit run0]. simpl in Hmiss, Hsent.
  subst hit. rewrite Henv. unfold Config.store, Config._now.
  eexists _, _, _. split; [reflexivity|]. simpl.
  split; [exact central_env_lookup|]. split; [exact Hsent|reflexivity].
Qed.
End GetAllEnvironment.

Lemma get_all_environment_first_witness :
  exists (env_obj : gmap string json) self1 run1,
    Config.get_all (MCPClient.init vault None None None) vault ticking fresh_run
      = (inr (JObj env_obj), self1, run1) /\
    (forall key v,
       env_obj !! key = Some v <->
       exists s, v = JStr s /\ environ vault !! key = Some s /\
                 String.prefix "CENTRAL_" key = true) /\
    sent run1 = sent fresh_run /\
    fst (MCPClient._cache self1) = JObj env_obj.
Proof.
  refine (get_all_environment_first vault ticking
            (MCPClient.init vault None None None) fresh_run
            "CENTRAL_MCP_SERVER_URL" "http://mcp.local/" _ _ _).
  - reflexivity.
  - vm_compute. reflexivity.
  - reflexivity.
Defined.

Section GetAllFalsy.
Variables (w : World) (clock : nat -> Z).

Lemma cache_hit_true (self : MCPClient.t) (run run0 : Run) :
  Config.cache_hit self clock run = (true, run0) ->
  truthy (fst (MCPClient._cache self)) = true.
Proof.
  unfold Config.cache_hit. destruct (truthy _); [reflexivity|discriminate].
Qed.

Lemma fetch_remote_returns_url (self : MCPClient.t) (run run1 : Run) (v : json) :
  Config._fetch_remote self w run = (inr v, run1) ->
  exists u, MCPClient.url self = Some u /\ u <> "".
Proof.
  unfold Config._fetch_remote.
  destruct (MCPClient.url self) as [u|]; [|discriminate]. simpl.
  case_bool_decide as Hu; simpl; [discriminate|]. eauto.
Qed.

(** X12.  A falsy answer (an empty object, [null], 0, an empty list) is
    never served from the cache: after [get_all] has returned one, which
    only the server can supply, the next [get_all] asks the server again,
    however little time has passed. *)
Theorem get_all_falsy_not_cached
    (self self1 : MCPClient.t) (run run1 : Run) (v : json) (clock' : nat -> Z) :
  Config.get_all self w clock run = (inr v, self1, run1) ->
  truthy v = false ->
  exists u,
    MCPClient.url self = Some u /\ u <> "" /\
    sent (snd (Config.get_all self1 w clock' run1)) =
      Config.context_request self1 u :: sent run1.
Proof.
  intros H Hv.
  assert (truthy (JObj (Config.central_env w)) = false /\
          truthy (MCPClient._read_local w) = false /\
          exists u, MCPClient.url self = Some u /\ u <> "") as [Henv [Hlocal [u [Hu Hne]]]].
  { revert H. unfold Config.get_all.
    destruct (Config.cache_hit self clock run) as [[|] run0] eqn:Eh.
    - intros [= <- <- <-]. rewrite (cache_hit_true _ _ _ Eh) in Hv. discriminate.
    - destruct (truthy (JObj (Config.central_env w))) eqn:Eenv.
      + unfold Config.store, Config._now. intros [= <- <- <-].
        rewrite Eenv in Hv. discriminate.
      + destruct (truthy (MCPClient._read_local w)) eqn:Elocal.
        * unfold Config.store, Config._now. intros [= <- <- <-].
          rewrite Elocal in Hv. discriminate.
        * destruct (Config._fetch_remote self w run0) as [[e|remote] run2] eqn:Ef;
            [discriminate|].
          intros _. repeat split. exact (fetch_remote_returns_url _ _ _ _ Ef). }
  destruct (get_all_returns_cached _ _ _ _ _ _ _ H) as [Hc [Hurl _]].
  exists u. split; [exact Hu|]. split; [exact Hne|].
  rewrite <- Hurl in Hu.
  unfold Config.get_all.
  rewrite cache_hit_falsy by (rewrite Hc; exact Hv).
  rewrite Henv, Hlocal.
  pose proof (fetch_remote_sent w self1 run1 u Hu Hne) as Hsent.
  destruct (Config._fetch_remote self1 w run1) as [[e|remote] run2]; simpl in *.
  - exact Hsent.
  - exact Hsent.
Qed.
End GetAllFalsy.

Lemma get_all_falsy_not_cached_witness :
  let self := MCPClient.init empty_remote (Some "http://mcp.local") None None in
  let request := {| method := GET; target := "http://mcp.local/context";
                    bearer := None |} in
  let self1 := {| MCPClient.url := Some "http://mcp.local";
                  MCPClient.token := None;
                  MCPClient.cache_ttl := 30;
                  MCPClient._cache := (JObj ∅, 1000) |} in
  let run1 := {| sent := [request]; reads := 1 |} in
  exists u,
    MCPClient.url self = Some u /\ u <> "" /\
    sent (snd (Config.get_all self1 empty_remote ticking run1)) =
      Config.context_request self1 u :: sent run1.
Proof.
  cbv zeta.
  refine (get_all_falsy_not_cached empty_remote ticking
            (MCPClient.init empty_remote (Some "http://mcp.local") None None)
            _ fresh_run _ (JObj ∅) ticking _ _).
  - vm_compute. reflexivity.
  - reflexivity.
Defined.

(** * More on [get_secret] *)





Lemma rstrip_slash_app_slash (u : string) :
  rstrip_slash (u +:+ "/") = rstrip_slash u.
Proof.
  induction u as [|c u IH]; [reflexivity|].
  simpl. rewrite IH. reflexivity.
Qed.

Lemma nonempty_truthy (u : string) : u <> "" -> truthy_str (Some u) = true.
Proof. intros H. simpl. rewrite bool_decide_eq_false_2 by exact H. reflexivity. Qed.

Lemma app_slash_truthy (u : string) : truthy_str (Some (u +:+ "/")) = true.
Proof.
  simpl. rewrite bool_decide_eq_false_2; [reflexivity|]. destruct u; discriminate.
Qed.

(** X14.  A trailing slash on the configured URL makes no difference to
    [get_secret] or to [_fetch_remote]: two clients with the same token
    whose URLs differ by one trailing slash send the same requests and get
    the same answer. *)
Theorem trailing_slash_ignored (self self' : MCPClient.t) (u : string)
    (name : string) (w : World) (log : list http_request) (run : Run) :
  MCPClient.url self = Some u -> u <> "" ->
  MCPClient.url self' = Some (u +:+ "/") ->
  MCPClient.token self' = MCPClient.token self ->
  MCPClient.get_secret self' name w log = MCPClient.get_secret self name w log /\
  Config._fetch_remote self' w run = Config._fetch_remote self w run.
Proof.
  intros Hu Hne Hu' Ht. split.
  - unfold MCPClient.get_secret, MCPClient.get_remote, MCPClient.try_direct,
      MCPClient.try_jwt.
    rewrite Hu, Hu', Ht, app_slash_truthy, rstrip_slash_app_slash,
      (nonempty_truthy u Hne).
    reflexivity.
  - unfold Config._fetch_remote, Config.context_request.
    rewrite Hu, Hu', Ht, app_slash_truthy, rstrip_slash_app_slash,
      (nonempty_truthy u Hne).
    reflexivity.
Qed.

Lemma trailing_slash_ignored_witness :
  let with_slash := MCPClient.init vault None None None in
  let without := MCPClient.init vault (Some "http://mcp.local") None None in
  MCPClient.get_secret with_slash "mySecretKey" vault [] =
    MCPClient.get_secret without "mySecretKey" vault [] /\
  Config._fetch_remote with_slash vault fresh_run =
    Config._fetch_remote without vault fresh_run.
Proof.
  refine (trailing_slash_ignored
            (MCPClient.init vault (Some "http://mcp.local") None None)
            (MCPClient.init vault None None None)
            "http://mcp.local" "mySecretKey" vault [] fresh_run _ _ _ _).
  - reflexivity.
  - discriminate.
  - vm_compute. reflexivity.
  - vm_compute. reflexivity.
Defined.

(** X15.  With a local file whose ["secrets"] entry is absent or an object
    (or whose top level is not an object), [get_secret] returns and never
    raises, whatever the environment and the server do. *)
Theorem get_secret_never_raises (self : MCPClient.t) (w : World)
    (log : list http_request) (name : string) :
  secrets_well_formed (MCPClient._read_local w) ->
  exists v, fst (MCPClient.get_secret self name w log) = Return v.
Proof.
  intros Hwf. unfold MCPClient.get_secret.
  destruct (environ w !! name); [eauto|].
  destruct (environ w !! upper name); [eauto|].
  destruct (lookup_local_returns _ name Hwf) as [[v|] ->]; [eauto|].
  destruct (MCPClient.get_remote self name w log). eauto.
Qed.

Lemma get_secret_never_raises_witness :
  exists v, fst (MCPClient.get_secret (MCPClient.init vault None None None)
                   "mySecretKey" vault []) = Return v.
Proof.
  exact (get_secret_never_raises (MCPClient.init vault None None None) vault []
           "mySecretKey" I).
Defined.

(** X16.  When the configuration comes from a local file whose top level is
    a truthy value other than an object (a non-empty list or string, a
    number, [true]), [get] raises [AttributeError] for every key; the value
    has been cached by then, and no request was sent. *)
Theorem get_on_non_object_file
    (self : MCPClient.t) (w : World) (clock : nat -> Z) (run : Run) (key : string) :
  truthy (fst (MCPClient._cache self)) = false ->
  Config.central_env w = ∅ ->
  truthy (MCPClient._read_local w) = true ->
  (forall members, MCPClient._read_local w <> JObj members) ->
  exists msg self1 run1,
    Config.get self key w clock run = (inl (AttributeError msg), self1, run1) /\
    fst (MCPClient._cache self1) = MCPClient._read_local w /\
    sent run1 = sent run.
Proof.
  intros Hcache Henv Hlocal Hshape.
  unfold Config.get, Config.get_all.
  rewrite (cache_hit_falsy clock self run Hcache), Henv.
  change (truthy (JObj ∅)) with false. cbv iota.
  rewrite Hlocal. unfold Config.store, Config._now. rewrite Hlocal.
  destruct (MCPClient._read_local w) as [| | | | | |members] eqn:E;
    try (eexists _, _, _; split; [reflexivity|split; reflexivity]).
  exfalso. exact (Hshape members eq_refl).
Qed.

Lemma get_on_non_object_file_witness :
  let w := offline (JArr [JStr "mySecretKey"]) in
  exists msg self1 run1,
    Config.get (MCPClient.init w None None None) "mySecretKey" w ticking fresh_run
      = (inl (AttributeError msg), self1, run1) /\
    fst (MCPClient._cache self1) = MCPClient._read_local w /\
    sent run1 = sent fresh_run.
Proof.
  refine (get_on_non_object_file
            (MCPClient.init (offline (JArr [JStr "mySecretKey"])) None None None)
            (offline (JArr [JStr "mySecretKey"])) ticking fresh_run "mySecretKey"
            _ _ _ _).
  - reflexivity.
  - vm_compute. reflexivity.
  - vm_compute. reflexivity.
  - intros members. vm_compute. discriminate.
Defined.

(** * The HTTP handlers *)

Section HandlerProperties.
Context {S Results : Type}.
Variable validate_analysis_request :
  AnalysisRequest.t -> S -> (service_exception + ValidationResult.t) * S.

(** X17.  When the validation service finds the request invalid,
    [analyze_beam] answers 500 "Internal calculation error": the 400 it
    raises with the validation errors is caught by its own
    [except Exception] clause.  The errors reach only the log, and the
    calculator is not run (the outcome is the same for every calculator). *)
Theorem analyze_beam_invalid_request
    (calculate calculate' : AnalysisRequest.t -> S -> (service_exception + Results) * S)
    (request : AnalysisRequest.t) (s s1 : S) (validation_result : ValidationResult.t) :
  validate_analysis_request request s = (inr validation_result, s1) ->
  ValidationResult.is_valid validation_result = false ->
  Api.analyze_beam validate_analysis_request calculate request s =
    (inl internal_error, s1,
     [ Info ("Starting beam analysis for request ID: " +:+ AnalysisRequest.id request);
       Error "Calculation error: "
         (FromHandler
            {| status_code := 400;
               http_detail := InvalidInput "Invalid input data"
                                (ValidationResult.errors validation_result) |}) ]) /\
  Api.analyze_beam validate_analysis_request calculate' request s =
    Api.analyze_beam validate_analysis_request calculate request s.
Proof.
  intros Hv Hinvalid. unfold Api.analyze_beam. rewrite Hv, Hinvalid. simpl.
  split; reflexivity.
Qed.

End HandlerProperties.

Lemma analyze_beam_invalid_request_witness :
  Api.analyze_beam rejecting failing sample_request 0%nat =
    (inl internal_error, 1%nat,
     [ Info "Starting beam analysis for request ID: R1";
       Error "Calculation error: "
         (FromHandler
            {| status_code := 400;
               http_detail := InvalidInput "Invalid input data"
                                ["Beam is not supported at both ends"] |}) ]).
Proof.
  exact (proj1 (analyze_beam_invalid_request rejecting failing failing
                  sample_request 0%nat 1%nat _ eq_refl eq_refl)).
Defined.

(** ** The advertised beam types *)

Lemma beam_type_value_round_trip (b : BeamType.t) :
  beam_type_of_value (beam_type_value b) = Some b.
Proof. destruct b; reflexivity. Qed.

(** X19.  Every beam type that [get_beam_types] advertises is a value of
    [BeamType], and its [supports_required] is the number of supports the
    validator of SupportConditions accepts for it: a list of fixed supports
    passes the check exactly when it has that many items. *)
Theorem advertised_beam_types_agree (row : Api.beam_type_row) :
  row ∈ Api.beam_types ->
  exists beam_type,
    beam_type_of_value (Api.row_id row) = Some beam_type /\
    forall v : list Support.t,
      Forall (fun s => Support.type s = SupportType.FIXED) v ->
      (SupportConditions.validate_supports v (Some beam_type) = inr v <->
       List.length v = Api.supports_required row).
Proof.
  intros Hrow. unfold Api.beam_types in Hrow.
  repeat (apply elem_of_cons in Hrow as [->|Hrow]); [| | |inversion Hrow].
  - exists BeamType.SIMPLY_SUPPORTED. split; [reflexivity|].
    intros v _. unfold SupportConditions.validate_supports. simpl.
    destruct (Nat.eqb_spec (List.length v) 2) as [E|E]; simpl;
      split; intros H; try reflexivity; try assumption; try discriminate; congruence.
  - exists BeamType.CANTILEVER. split; [reflexivity|].
    intros v Hfixed. unfold SupportConditions.validate_supports. simpl.
    destruct v as [|a [|b v]]; simpl.
    + split; intros H; discriminate.
    + apply Forall_cons in Hfixed as [Ha _].
      rewrite bool_decide_eq_false_2 by (intros N; apply N, Ha).
      split; reflexivity.
    + split; intros H; discriminate.
  - exists BeamType.FIXED_FIXED. split; [reflexivity|].
    intros v _. unfold SupportConditions.validate_supports. simpl.
    destruct (Nat.eqb_spec (List.length v) 2) as [E|E]; simpl;
      split; intros H; try reflexivity; try assumption; try discriminate; congruence.
Qed.

Lemma advertised_beam_types_agree_witness :
  exists beam_type,
    beam_type_of_value "cantilever" = Some beam_type /\
    forall v : list Support.t,
      Forall (fun s => Support.type s = SupportType.FIXED) v ->
      (SupportConditions.validate_supports v (Some beam_type) = inr v <->
       List.length v = 1%nat).
Proof.
  refine (advertised_beam_types_agree
            {| Api.row_id := "cantilever"; Api.row_name := "Cantilever Beam";
               Api.row_description := "คานยื่น (Fixed-Free)";
               Api.supports_required := 1 |} _).
  unfold Api.beam_types. apply elem_of_cons. right. apply elem_of_cons. left. reflexivity.
Defined.

(** * More on the load union and on reported errors *)

(** X20.  A load object without a ["type"] and without an ["angle"] is never
    read as a MomentLoad: whatever validates as a MomentLoad validates as a
    PointLoad too, and PointLoad is tried first.  (Such a moment arrives as
    a point load with the default direction of a point load.) *)
Theorem untagged_load_never_moment (d : Load.raw) (m : MomentLoad.t) :
  Load.type d = None ->
  Load.angle d = None ->
  Load.parse d <> Ok (Load.Moment m).
Proof.
  intros Htype Hangle. unfold Load.parse. rewrite Htype, Hangle.
  destruct (PointLoad.init None _ _ _ None) as [p|ep] eqn:Ep; [discriminate|].
  destruct (DistributedLoad.init None _ _ _ _ _) as [l|el]; [discriminate|].
  destruct (MomentLoad.init None _ _ _) as [m'|em] eqn:Em; [|discriminate].
  exfalso. revert Ep Em.
  unfold PointLoad.init, MomentLoad.init, required, with_default, plain.
  rewrite ?magnitude_never_rejected.
  destruct (Load.magnitude d) as [mag|]; [|discriminate].
  rewrite magnitude_never_rejected.
  destruct (Load.position d) as [pos|]; [|discriminate].
  destruct (float_size_validator ge_zero pos); [discriminate|].
  destruct (Load.direction d); discriminate.
Qed.

Lemma untagged_load_never_moment_witness :
  Load.parse {| Load.type := None; Load.magnitude := Some 50%float;
                Load.position := Some 1%float;
                Load.direction := Some Direction.CLOCKWISE;
                Load.angle := None; Load.start_magnitude := None;
                Load.end_magnitude := None; Load.start_position := None;
                Load.end_position := None |}
  <> Ok (Load.Moment {| MomentLoad.type := LoadType.MOMENT;
                        MomentLoad.magnitude := 50%float;
                        MomentLoad.position := 1%float;
                        MomentLoad.direction := Direction.CLOCKWISE |}).
Proof.
  exact (untagged_load_never_moment
           {| Load.type := None; Load.magnitude := Some 50%float;
              Load.position := Some 1%float;
              Load.direction := Some Direction.CLOCKWISE;
              Load.angle := None; Load.start_magnitude := None;
              Load.end_magnitude := None; Load.start_position := None;
              Load.end_position := None |}
           {| MomentLoad.type := LoadType.MOMENT;
              MomentLoad.magnitude := 50%float;
              MomentLoad.position := 1%float;
              MomentLoad.direction := Direction.CLOCKWISE |} eq_refl eq_refl).
Defined.

(** X21.  The errors of a request are collected, not cut at the first: when
    a support and a load both lie beyond the beam, the request is rejected
    with exactly two errors, the one of the supports first and then the one
    of the loads. *)
Theorem request_reports_supports_and_loads
    (now : Z) (id : string) (timestamp : option Z)
    (beam : BeamProperties.t) (supports : SupportConditions.t)
    (loads : LoadConditions.t) :
  existsb (support_exceeds (BeamProperties.length beam))
    (SupportConditions.supports supports) = true ->
  existsb (load_exceeds (BeamProperties.length beam))
    (LoadConditions.loads loads) = true ->
  exists e_supports e_loads,
    AnalysisRequest.init now (Some id) timestamp (Some (Ok beam)) (Some (Ok supports))
      (Some (Ok loads)) None =
    ValidationError [([Key "supports"], e_supports); ([Key "loads"], e_loads)].
Proof.
  intros Hs Hl.
  pose proof (validate_support_positions_spec supports beam) as HS.
  pose proof (validate_load_positions_spec loads beam) as HL.
  rewrite Hs in HS. rewrite Hl in HL.
  destruct HS as [es Hes], HL as [el Hel].
  exists es, el.
  unfold AnalysisRequest.init, required, nested, bind_field, values_get,
    with_default, plain.
  rewrite Hes, Hel. destruct timestamp; reflexivity.
Qed.

Lemma request_reports_supports_and_loads_witness :
  exists e_supports e_loads,
    AnalysisRequest.init 0 (Some "R1") None (Some (Ok Sample.beam))
      (Some (Ok {| SupportConditions.type := BeamType.CANTILEVER;
                   SupportConditions.supports :=
                     [Sample.support_at 6%float SupportType.FIXED] |}))
      (Some (Ok Sample.beyond_the_end)) None =
    ValidationError [([Key "supports"], e_supports); ([Key "loads"], e_loads)].
Proof.
  exact (request_reports_supports_and_loads 0 "R1" None Sample.beam
           {| SupportConditions.type := BeamType.CANTILEVER;
              SupportConditions.supports :=
                [Sample.support_at 6%float SupportType.FIXED] |}
           Sample.beyond_the_end eq_refl eq_refl).
Defined.

(** * The local configuration file *)

Lemma read_first_spec (files : string -> file_state) (ps : list string) (data : json) :
  MCPClient.read_first files ps = data ->
  (exists i p,
     ps !! i = Some p /\ files p = Content data /\
     forall j q, (j < i)%nat -> ps !! j = Some q -> forall d, files q <> Content d) \/
  (data = JNull /\ forall p, p ∈ ps -> forall d, files p <> Content d).
Proof.
  revert data. induction ps as [|p ps IH]; intros data; simpl.
  - intros <-. right. split; [reflexivity|]. intros p Hp. inversion Hp.
  - destruct (files p) as [| |c] eqn:Ep.
    + intros H. destruct (IH _ H) as [[i [q [Hq [Hc Hbefore]]]]|[-> Hnone]].
      * left. exists (S i), q. split; [exact Hq|]. split; [exact Hc|].
        intros [|j] q' Hj Hq' d; simpl in Hq'.
        -- injection Hq' as <-. rewrite Ep. discriminate.
        -- apply (Hbefore j q'); [lia|exact Hq'].
      * right. split; [reflexivity|]. intros q Hq d.
        apply elem_of_cons in Hq as [->|Hq]; [rewrite Ep; discriminate|].
        exact (Hnone q Hq d).
    + intros H. destruct (IH _ H) as [[i [q [Hq [Hc Hbefore]]]]|[-> Hnone]].
      * left. exists (S i), q. split; [exact Hq|]. split; [exact Hc|].
        intros [|j] q' Hj Hq' d; simpl in Hq'.
        -- injection Hq' as <-. rewrite Ep. discriminate.
        -- apply (Hbefore j q'); [lia|exact Hq'].
      * right. split; [reflexivity|]. intros q Hq d.
        apply elem_of_cons in Hq as [->|Hq]; [rewrite Ep; discriminate|].
        exact (Hnone q Hq d).
    + intros <-. left. exists 0%nat, p. split; [reflexivity|]. split; [exact Ep|].
      intros j q Hj. lia.
Qed.

(** X22.  [_read_local] returns the content of the first candidate file that
    exists and loads, the path under [C:] before the one next to the
    sources; a candidate that is missing, unreadable or not JSON is skipped
    without an error, and when no candidate loads the result is [None]. *)
Theorem read_local_first_loadable (w : World) :
  (exists i p,
     MCPClient.candidates w !! i = Some p /\
     files w p = Content (MCPClient._read_local w) /\
     forall j q, (j < i)%nat -> MCPClient.candidates w !! j = Some q ->
                 forall d, files w q <> Content d) \/
  (MCPClient._read_local w = JNull /\
   forall p, p ∈ MCPClient.candidates w -> forall d, files w p <> Content d).
Proof. apply read_first_spec. reflexivity. Qed.
